(** * MarkitDown Flask service: a shallow embedding of [app.py]

    The service wraps one call of the MarkItDown library in three Flask
    view functions.  The embedding follows
    [src/services/markitdown-service/app.py]:

    - Python [str] values are [string]s (one character of the model per
      code point), uploaded file content is a [list byte];
    - the JSON values that [request.get_json()] yields and that [jsonify]
      serialises are the inductive type [json];
    - the local file system is a finite map from paths to file contents;
    - a view function is a computation in a monad that threads the disk,
      collects the effects it performs (files created, saved and unlinked,
      library calls, log records) and either returns or raises;
    - the things the code does not control (the MarkItDown library, the
      random temporary names, I/O faults) are fields of [Platform] and
      [MarkItDown] records the view functions are parameterised by. *)

From Stdlib Require Import ZArith Ascii String List Bool Lia.
From Stdlib Require Import Floats.SpecFloat.
From stdpp Require Import base option gmap strings.

Import ListNotations.
Local Open Scope Z_scope.

Abbreviation byte := Byte.byte.

(** ** Python strings *)

Module Str.

(** [s[:n]] *)
Fixpoint take (n : nat) (s : string) : string :=
  match n, s with
  | S k, String c s' => String c (take k s')
  | _, _ => EmptyString
  end.

(** [s[n:]] *)
Fixpoint drop (n : nat) (s : string) : string :=
  match n, s with
  | S k, String _ s' => drop k s'
  | _, _ => s
  end.

(** [s.rfind(c)] for a one-character [c]: the highest index of [c] in
    [s], or [-1]. *)
Fixpoint rfind (c : ascii) (s : string) : Z :=
  match s with
  | EmptyString => -1
  | String a s' =>
      let r := rfind c s' in
      if 0 <=? r then 1 + r
      else if Ascii.eqb a c then 0 else -1
  end.

(** [s.startswith(pre)] *)
Fixpoint startswith (pre s : string) : bool :=
  match pre, s with
  | EmptyString, _ => true
  | String a pre', String b s' => Ascii.eqb a b && startswith pre' s'
  | String _ _, EmptyString => false
  end.

(** [s.endswith(c)] for a one-character [c]. *)
Fixpoint endswith (c : ascii) (s : string) : bool :=
  match s with
  | EmptyString => false
  | String a EmptyString => Ascii.eqb a c
  | String _ s' => endswith c s'
  end.

(** [needle in s]: substring test. *)
Fixpoint contains (needle s : string) : bool :=
  startswith needle s ||
  match s with
  | EmptyString => false
  | String _ s' => contains needle s'
  end.

(** [c.lower()] for one character of the Latin-1 range: the ASCII
    capitals and the capitals from U+00C0 to U+00DE, the multiplication
    sign apart, move 32 places up. *)
Definition lower_char (c : ascii) : ascii :=
  let n := N_of_ascii c in
  if ((65 <=? n) && (n <=? 90)
      || (192 <=? n) && (n <=? 222) && negb (n =? 215))%N
  then ascii_of_N (n + 32)
  else c.

(** [s.lower()] *)
Fixpoint lower (s : string) : string :=
  match s with
  | EmptyString => EmptyString
  | String c s' => String (lower_char c) (lower s')
  end.

End Str.

(** [len(s)] as an integer, in the statements about indices. *)
Local Abbreviation slen s := (Z.of_nat (String.length s)).

(** ** [os.path] (the POSIX flavour) *)

Module Path.

Definition sep : ascii := "/"%char.
Definition extsep : ascii := "."%char.

(** The [while] loop of [genericpath._splitext]: it looks for a
    character other than the dot in [p[filenameIndex:dotIndex]]; [fuel]
    is [dotIndex - filenameIndex]. *)
Fixpoint skip_leading_dots (fuel : nat) (p : string) (filenameIndex : Z) : bool :=
  match fuel with
  | O => false
  | S k =>
      match String.get (Z.to_nat filenameIndex) p with
      | Some c =>
          if Ascii.eqb c extsep
          then skip_leading_dots k p (filenameIndex + 1)
          else true
      | None => true
      end
  end.

(** [os.path.splitext(p)]: [(root, ext)]; [ext] is empty or starts
    with the last dot of the last path component, leading dots of
    that component not counting. *)
Definition splitext (p : string) : string * string :=
  let sepIndex := Str.rfind sep p in
  let dotIndex := Str.rfind extsep p in
  if (sepIndex <? dotIndex)
     && skip_leading_dots (Z.to_nat (dotIndex - (sepIndex + 1))) p (sepIndex + 1)
  then (Str.take (Z.to_nat dotIndex) p, Str.drop (Z.to_nat dotIndex) p)
  else (p, EmptyString).

(** [os.path.join(a, b)] for two components. *)
Definition join (a b : string) : string :=
  if Str.startswith (String sep EmptyString) b then b
  else if (String.eqb a EmptyString || Str.endswith sep a)%bool then a +:+ b
  else a +:+ String sep b.

End Path.

(** ** JSON values

    What [json.loads] produces and [jsonify] consumes.  A [dict] is kept
    as an association list in insertion order; a lookup returns the first
    binding of the key. *)

#[warnings="-register-all"]
Inductive json : Type :=
| JNull
| JBool (b : bool)
| JInt (n : Z)
| JFloat (f : spec_float)
| JStr (s : string)
| JArr (l : list json)
| JObj (m : list (string * json)).

Module Dict.

(** [d.get(k)] on an association list: the first binding of [k]. *)
Fixpoint get {A : Type} (k : string) (d : list (string * A)) : option A :=
  match d with
  | [] => None
  | (k', v) :: d' => if String.eqb k k' then Some v else get k d'
  end.

(** [k in d] *)
Definition mem {A : Type} (k : string) (d : list (string * A)) : bool :=
  match get k d with Some _ => true | None => false end.

(** [d.get(k, default)] *)
Definition get_default {A : Type} (k : string) (default : A)
    (d : list (string * A)) : A :=
  match get k d with Some v => v | None => default end.

End Dict.

(** [jsonify({...})] *)
Definition jsonify (fields : list (string * json)) : json := JObj fields.

(** The field [k] of a JSON object. *)
Definition field (k : string) (body : json) : option json :=
  match body with
  | JObj m => Dict.get k m
  | _ => None
  end.

(** ** Exceptions *)

(** The classes the handlers tell apart are [OSError] (with its
    subclasses) and [Exception].  [KeyboardInterrupt], [SystemExit] and
    [GeneratorExit] derive from [BaseException] only: an
    [except Exception] clause lets them through. *)
Inductive exn_class : Type :=
| OSError | TypeError | KeyError | ValueError | HTTPException | OtherException
| KeyboardInterrupt | SystemExit | GeneratorExit.

(** An exception with [str(e)]. *)
Record exn : Type := Exn { exn_type : exn_class; exn_str : string }.

Definition is_OSError (e : exn) : bool :=
  match exn_type e with OSError => true | _ => false end.

Definition is_Exception (e : exn) : bool :=
  match exn_type e with
  | KeyboardInterrupt | SystemExit | GeneratorExit => false
  | _ => true
  end.

Inductive outcome (A : Type) : Type :=
| Returned (a : A)
| Raised (e : exn).
Arguments Returned {A} a.
Arguments Raised {A} e.

(** ** Python's operators on JSON values *)

Module Py.

Definition float_is_zero (f : spec_float) : bool :=
  match f with S754_zero _ => true | _ => false end.

(** [bool(v)] *)
Definition truthy (v : json) : bool :=
  match v with
  | JNull => false
  | JBool b => b
  | JInt n => negb (n =? 0)
  | JFloat f => negb (float_is_zero f)
  | JStr s => negb (String.eqb s EmptyString)
  | JArr l => match l with [] => false | _ => true end
  | JObj m => match m with [] => false | _ => true end
  end.

(** [v == s] for a string [s] *)
Definition eq_str (s : string) (v : json) : bool :=
  match v with JStr s' => String.eqb s s' | _ => false end.

Definition not_iterable (ty : string) : exn :=
  Exn TypeError ("argument of type '" +:+ ty +:+ "' is not iterable").

(** [k in v] for a string [k]: key of a dict, element of a list,
    substring of a string; a [TypeError] for the other values. *)
Definition contains (k : string) (v : json) : outcome bool :=
  match v with
  | JObj m => Returned (Dict.mem k m)
  | JArr l => Returned (existsb (eq_str k) l)
  | JStr s => Returned (Str.contains k s)
  | JNull => Raised (not_iterable "NoneType")
  | JBool _ => Raised (not_iterable "bool")
  | JInt _ => Raised (not_iterable "int")
  | JFloat _ => Raised (not_iterable "float")
  end.

Definition not_subscriptable (ty : string) : exn :=
  Exn TypeError ("'" +:+ ty +:+ "' object is not subscriptable").

(** [v[k]] for a string [k]. *)
Definition getitem (v : json) (k : string) : outcome json :=
  match v with
  | JObj m =>
      match Dict.get k m with
      | Some x => Returned x
      | None => Raised (Exn KeyError ("'" +:+ k +:+ "'"))
      end
  | JArr _ => Raised (Exn TypeError "list indices must be integers or slices, not str")
  | JStr _ => Raised (Exn TypeError "string indices must be integers")
  | JNull => Raised (not_subscriptable "NoneType")
  | JBool _ => Raised (not_subscriptable "bool")
  | JInt _ => Raised (not_subscriptable "int")
  | JFloat _ => Raised (not_subscriptable "float")
  end.

End Py.

(** ** The world of a request *)

(** The result of [markitdown.convert]. *)
Record DocumentConverterResult : Type := { text_content : string }.

Inductive level : Type := INFO | ERROR.

(** A piece of a formatted log message: literal text, a formatted value,
    or [traceback.format_exc()]. *)
Inductive fragment : Type :=
| Lit (s : string)
| Val (v : json)
| Traceback (e : exn).

(** The effects a view function performs, in order. *)
Inductive event : Type :=
| TempFileCreated (path : string)
| FileSaved (path : string)
| LibraryCall (source : json) (res : outcome (option DocumentConverterResult))
| Unlink (path : string) (removed : bool)
| Log (lvl : level) (msg : list fragment).

(** The module-level [markitdown = MarkItDown()]: [convert] may read the
    local files; it returns a result, [None], or raises. *)
Record MarkItDown : Type := {
  md_convert :
    gmap string (list byte) -> json -> outcome (option DocumentConverterResult)
}.

(** What [tempfile] and [os] do apart from the disk content: the
    temporary directory, the random choices behind the candidate names
    (each a list of indices into the name alphabet), and the faults of
    the calls that can fail for reasons outside the model. *)
Record Platform : Type := {
  tempdir : string;
  candidate_names : list (list nat);
  mkstemp_fault : option exn;
  save_fault : option exn;
  unlink_fault : option string
}.

(** An uploaded file of [request.files]. *)
Record FileStorage : Type := { filename : string; stream : list byte }.

(** Flask's [request].  [request.files] and [request.form] load the
    form data of the body when they are first read, which can raise
    (a body over the limits, for one): [parse_fault] is that exception,
    [files] and [form] are what a body that loads holds.  [get_json] is
    what [request.get_json()] does. *)
Record Request : Type := {
  parse_fault : option exn;
  files : list (string * FileStorage);
  form : list (string * string);
  get_json : outcome json
}.

(** A view function's return value: the body and the status code. *)
Definition response : Type := json * Z.

(** ** The monad of view functions *)

Record Ran (A : Type) : Type := mkRan {
  result : outcome A;
  final_disk : gmap string (list byte);
  events : list event
}.
Arguments mkRan {A} result final_disk events.
Arguments result {A} r.
Arguments final_disk {A} r.
Arguments events {A} r.

Definition M (A : Type) : Type := gmap string (list byte) -> Ran A.

Definition ret {A : Type} (a : A) : M A := fun d => mkRan (Returned a) d [].

Definition raise {A : Type} (e : exn) : M A := fun d => mkRan (Raised e) d [].

Definition bind {A B : Type} (m : M A) (k : A -> M B) : M B := fun d =>
  match m d with
  | mkRan (Returned a) d' evs =>
      match k a d' with
      | mkRan res d'' evs' => mkRan res d'' (evs ++ evs')
      end
  | mkRan (Raised e) d' evs => mkRan (Raised e) d' evs
  end.

#[global] Instance M_ret : MRet M := @ret.
#[global] Instance M_bind : MBind M := fun A B k m => bind m k.

Definition lift {A : Type} (o : outcome A) : M A :=
  match o with Returned a => ret a | Raised e => raise e end.

Definition emit (ev : event) : M unit := fun d => mkRan (Returned tt) d [ev].

Definition get_disk : M (gmap string (list byte)) := fun d => mkRan (Returned d) d [].

Definition put_disk (d' : gmap string (list byte)) : M unit :=
  fun _ => mkRan (Returned tt) d' [].

(** [try: body / except C as e: handler e], [catches] deciding the
    class [C]. *)
Definition try_except {A : Type} (body : M A) (catches : exn -> bool)
    (handler : exn -> M A) : M A := fun d =>
  match body d with
  | mkRan (Returned a) d' evs => mkRan (Returned a) d' evs
  | mkRan (Raised e) d' evs =>
      if catches e then
        match handler e d' with
        | mkRan res d'' evs' => mkRan res d'' (evs ++ evs')
        end
      else mkRan (Raised e) d' evs
  end.

(** [try: body / finally: cleanup]: the cleanup runs whatever the body
    did; the body's return value or exception stands unless the cleanup
    itself raises. *)
Definition try_finally {A : Type} (body : M A) (cleanup : M unit) : M A := fun d =>
  match body d with
  | mkRan res d' evs =>
      match cleanup d' with
      | mkRan (Returned _) d'' evs' => mkRan res d'' (evs ++ evs')
      | mkRan (Raised e) d'' evs' => mkRan (Raised e) d'' (evs ++ evs')
      end
  end.

(** ** [tempfile], [os] and the library over the disk *)

(** The characters of a temporary name
    ([tempfile._RandomNameSequence.characters]). *)
Definition characters : list ascii :=
  list_ascii_of_string "abcdefghijklmnopqrstuvwxyz0123456789_".

(** One candidate name: [''.join(rng.choices(characters, k=8))], from
    the indices the generator chose. *)
Definition random_name (choices : list nat) : string :=
  string_of_list_ascii
    (map (fun i => nth (i mod length characters)%nat characters "a"%char) choices).

Section Service.

Variable sys : Platform.
Variable markitdown : MarkItDown.
Variable request : Request.

(** [os.path.join(dir, "tmp" + name + suffix)] *)
Definition temp_path (suffix : string) (choices : list nat) : string :=
  Path.join (tempdir sys) ("tmp" +:+ random_name choices +:+ suffix).

(** The loop of [tempfile._mkstemp_inner]: the first candidate that
    does not exist yet. *)
Fixpoint first_free (d : gmap string (list byte)) (paths : list string)
    : option string :=
  match paths with
  | [] => None
  | p :: rest =>
      match d !! p with
      | None => Some p
      | Some _ => first_free d rest
      end
  end.

(** [tempfile.NamedTemporaryFile(delete=False, suffix=suffix)], used
    as a context manager, and its [.name]: an empty file under a fresh
    name, which closing does not delete. *)
Definition NamedTemporaryFile (suffix : string) : M string :=
  match mkstemp_fault sys with
  | Some e => raise e
  | None =>
      d ← get_disk;
      match first_free d (map (temp_path suffix) (candidate_names sys)) with
      | Some p =>
          put_disk (<[p := []]> d);;
          emit (TempFileCreated p);;
          ret p
      | None =>
          raise (Exn OSError "[Errno 17] No usable temporary file name found")
      end
  end.

(** [file.save(dst)]: the upload's bytes become the content of [dst];
    a failing save leaves the disk as it is. *)
Definition save (file : FileStorage) (dst : string) : M unit :=
  match save_fault sys with
  | Some e => raise e
  | None =>
      d ← get_disk;
      put_disk (<[dst := stream file]> d);;
      emit (FileSaved dst)
  end.

Definition no_such_file (path : string) : exn :=
  Exn OSError ("[Errno 2] No such file or directory: '" +:+ path +:+ "'").

(** [os.path.getsize(path)] *)
Definition getsize (path : string) : M Z :=
  d ← get_disk;
  match d !! path with
  | Some content => ret (Z.of_nat (length content))
  | None => raise (no_such_file path)
  end.

(** [os.unlink(path)]: an [OSError] when the platform refuses or the
    file does not exist. *)
Definition unlink (path : string) : M unit :=
  match unlink_fault sys with
  | Some msg => emit (Unlink path false);; raise (Exn OSError msg)
  | None =>
      d ← get_disk;
      match d !! path with
      | Some _ => put_disk (delete path d);; emit (Unlink path true)
      | None => emit (Unlink path false);; raise (no_such_file path)
      end
  end.

(** [markitdown.convert(source)] *)
Definition convert (source : json) : M (option DocumentConverterResult) :=
  d ← get_disk;
  let res := md_convert markitdown d source in
  emit (LibraryCall source res);;
  lift res.

Definition logger_info (msg : list fragment) : M unit := emit (Log INFO msg).
Definition logger_error (msg : list fragment) : M unit := emit (Log ERROR msg).

(** [request.files]: the form data is loaded, or the loading raises. *)
Definition request_files : M (list (string * FileStorage)) :=
  match parse_fault request with
  | Some e => raise e
  | None => ret (files request)
  end.

(** [request.form] *)
Definition request_form : M (list (string * string)) :=
  match parse_fault request with
  | Some e => raise e
  | None => ret (form request)
  end.

(** [request.files['file']] *)
Definition files_getitem (k : string) : M FileStorage :=
  fs ← request_files;
  match Dict.get k fs with
  | Some f => ret f
  | None => raise (Exn HTTPException "400 Bad Request: KeyError")
  end.

(** [len(s)] *)
Definition len (s : string) : Z := Z.of_nat (String.length s).

(** *** The view functions *)

(** [GET /health] *)
Definition health_check : M response :=
  ret (jsonify [("status", JStr "healthy"); ("service", JStr "markitdown-service")], 200).

(** The [except Exception as e] block of [convert_file]. *)
Definition convert_file_failed (e : exn) : M response :=
  logger_error [Lit "Error converting file: "; Val (JStr (exn_str e))];;
  logger_error [Traceback e];;
  ret (jsonify [("success", JBool false); ("error", JStr (exn_str e))], 500).

(** The [with tempfile.NamedTemporaryFile(...) as temp_file] block of
    [convert_file]: the upload is saved under the temporary name, which
    becomes [temp_file_path]. *)
Definition stage_upload (file : FileStorage) (filename : string) : M string :=
  temp_file_name ← NamedTemporaryFile (snd (Path.splitext filename));
  save file temp_file_name;;
  ret temp_file_name.

(** The body of the inner [try] of [convert_file]. *)
Definition convert_staged (filename temp_file_path : string) : M response :=
  logger_info [Lit "Converting file: "; Val (JStr filename)];;
  result ← convert (JStr temp_file_path);
  let markdown_content :=
    match result with Some r => text_content r | None => EmptyString end in
  logger_info [Lit "Successfully converted "; Val (JStr filename);
               Lit " to markdown ("; Val (JInt (len markdown_content));
               Lit " characters)"];;
  original_size ← getsize temp_file_path;
  ret (jsonify [("success", JBool true);
                ("filename", JStr filename);
                ("markdown", JStr markdown_content);
                ("original_size", JInt original_size);
                ("markdown_size", JInt (len markdown_content))], 200).

(** The [finally] block of [convert_file]. *)
Definition cleanup (temp_file_path : string) : M unit :=
  try_except (unlink temp_file_path) is_OSError (fun _ => ret tt).

(** [POST /convert] *)
Definition convert_file : M response :=
  try_except
    (fs ← request_files;
     if negb (Dict.mem "file" fs) then
       ret (jsonify [("error", JStr "No file provided")], 400)
     else
       file ← files_getitem "file";
       if String.eqb (filename file) EmptyString then
         ret (jsonify [("error", JStr "No file selected")], 400)
       else
         fields ← request_form;
         let filename := Dict.get_default "filename" (filename file) fields in
         temp_file_path ← stage_upload file filename;
         try_finally (convert_staged filename temp_file_path)
                     (cleanup temp_file_path))
    is_Exception
    convert_file_failed.

(** The [except Exception as e] block of [convert_url]. *)
Definition convert_url_failed (e : exn) : M response :=
  logger_error [Lit "Error converting URL: "; Val (JStr (exn_str e))];;
  logger_error [Traceback e];;
  ret (jsonify [("success", JBool false); ("error", JStr (exn_str e))], 500).

(** [not data or 'url' not in data], the right operand evaluated only
    when [data] is truthy. *)
Definition url_missing (data : json) : M bool :=
  if negb (Py.truthy data) then ret true
  else present ← lift (Py.contains "url" data); ret (negb present).

(** The conversion of [convert_url], once [url] is known. *)
Definition convert_given_url (url : json) : M response :=
  logger_info [Lit "Converting URL: "; Val url];;
  result ← convert url;
  let markdown_content :=
    match result with Some r => text_content r | None => EmptyString end in
  logger_info [Lit "Successfully converted URL "; Val url;
               Lit " to markdown ("; Val (JInt (len markdown_content));
               Lit " characters)"];;
  ret (jsonify [("success", JBool true);
                ("url", url);
                ("markdown", JStr markdown_content);
                ("markdown_size", JInt (len markdown_content))], 200).

(** [POST /convert-url] *)
Definition convert_url : M response :=
  try_except
    (data ← lift (get_json request);
     missing ← url_missing data;
     if (missing : bool) then
       ret (jsonify [("error", JStr "No URL provided")], 400)
     else
       url ← lift (Py.getitem data "url");
       convert_given_url url)
    is_Exception
    convert_url_failed.

(** [@app.errorhandler(413)] *)
Definition request_entity_too_large : M response :=
  ret (jsonify [("error", JStr "File too large")], 413).

(** [@app.errorhandler(404)] *)
Definition not_found : M response :=
  ret (jsonify [("error", JStr "Endpoint not found")], 404).

End Service.

(** A view function in its context: the platform, the converter and the
    request being served. *)
Definition view : Type := Platform -> MarkItDown -> Request -> M response.

(** The routes the [@app.route] decorators register: rule and method to
    view function. *)
Definition view_function (rule method : string) : option view :=
  if String.eqb rule "/health" && String.eqb method "GET" then
    Some (fun _ _ _ => health_check)
  else if String.eqb rule "/convert" && String.eqb method "POST" then
    Some (fun sys markitdown request => convert_file sys markitdown request)
  else if String.eqb rule "/convert-url" && String.eqb method "POST" then
    Some (fun _ markitdown request => convert_url markitdown request)
  else None.

(** ** The start-up settings *)

(** [os.environ.get(key, default)] *)
Definition environ_get (environ : gmap string string) (key default : string) : string :=
  match environ !! key with
  | Some value => value
  | None => default
  end.

(** The [debug] setting of the [__main__] block:
    [os.environ.get('DEBUG', 'False').lower() == 'true']. *)
Definition debug (environ : gmap string string) : bool :=
  String.eqb (Str.lower (environ_get environ "DEBUG" "False")) "true".

(** ** Reading a run *)

(** The log records of an [except Exception as e] block. *)
Definition error_logs (what : string) (e : exn) : list event :=
  [Log ERROR [Lit what; Val (JStr (exn_str e))]; Log ERROR [Traceback e]].

(** The response of an [except Exception as e] block. *)
Definition failure (e : exn) : response :=
  (jsonify [("success", JBool false); ("error", JStr (exn_str e))], 500).

(** [result.text_content if result else ''] *)
Definition text_of (res : option DocumentConverterResult) : string :=
  match res with Some r => text_content r | None => EmptyString end.

(** The temporary files a run created, in order. *)
Definition created (evs : list event) : list string :=
  omap (fun ev => match ev with TempFileCreated p => Some p | _ => None end) evs.

(** The paths a run called [os.unlink] on, in order. *)
Definition unlink_attempts (evs : list event) : list string :=
  omap (fun ev => match ev with Unlink p _ => Some p | _ => None end) evs.

(** The paths a run removed. *)
Definition unlinked (evs : list event) : list string :=
  omap (fun ev => match ev with Unlink p true => Some p | _ => None end) evs.

(** The sources [markitdown.convert] was called on. *)
Definition library_calls (evs : list event) : list json :=
  omap (fun ev => match ev with LibraryCall src _ => Some src | _ => None end) evs.

(** The filename in effect for a conversion: the form field [filename]
    when present, otherwise the uploaded file's reported name. *)
Definition effective_filename (request : Request) : option string :=
  match Dict.get "file" (files request) with
  | Some file => Some (Dict.get_default "filename" (filename file) (form request))
  | None => None
  end.

(** A converter whose answer for a local file is a function of the
    file's content and extension only. *)
Definition deterministic (markitdown : MarkItDown) : Prop :=
  forall (d d' : gmap string (list byte)) (p p' : string) (content : list byte),
    d !! p = Some content ->
    d' !! p' = Some content ->
    snd (Path.splitext p) = snd (Path.splitext p') ->
    md_convert markitdown d (JStr p) = md_convert markitdown d' (JStr p').

(** The same platform with another behaviour of [os.unlink]. *)
Definition with_unlink_fault (fault : option string) (sys : Platform) : Platform :=
  {| tempdir := tempdir sys;
     candidate_names := candidate_names sys;
     mkstemp_fault := mkstemp_fault sys;
     save_fault := save_fault sys;
     unlink_fault := fault |}.

(** One staged temporary file was created, it was removed once, and it
    is gone. *)
Definition one_staged_file_created_and_deleted (r : Ran response) : Prop :=
  exists p : string,
    created (events r) = [p] /\ unlinked (events r) = [p] /\ final_disk r !! p = None.

(** *** The shapes a run can take *)

(** How the upload is staged: [tempfile] refuses, no name is free, the
    save fails after the file was created, or the upload is on disk. *)
Inductive staged (sys : Platform) (f : FileStorage) (name : string)
    (d : gmap string (list byte)) : Ran string -> Prop :=
| staged_mkstemp_fault e :
    mkstemp_fault sys = Some e ->
    staged sys f name d (mkRan (Raised e) d [])
| staged_no_name :
    mkstemp_fault sys = None ->
    first_free d (map (temp_path sys (snd (Path.splitext name))) (candidate_names sys)) = None ->
    staged sys f name d
      (mkRan (Raised (Exn OSError "[Errno 17] No usable temporary file name found")) d [])
| staged_save_fault p e :
    mkstemp_fault sys = None ->
    first_free d (map (temp_path sys (snd (Path.splitext name))) (candidate_names sys)) = Some p ->
    save_fault sys = Some e ->
    staged sys f name d (mkRan (Raised e) (<[p := []]> d) [TempFileCreated p])
| staged_ok p :
    mkstemp_fault sys = None ->
    first_free d (map (temp_path sys (snd (Path.splitext name))) (candidate_names sys)) = Some p ->
    save_fault sys = None ->
    staged sys f name d
      (mkRan (Returned p) (<[p := stream f]> d) [TempFileCreated p; FileSaved p]).

(** What the [finally] block of [convert_file] leaves of the staged
    file [p], which did not exist in [d]: the disk, and whether the file
    was removed. *)
Definition cleaned (sys : Platform) (p : string) (content : list byte)
    (d : gmap string (list byte)) : gmap string (list byte) * bool :=
  match unlink_fault sys with
  | Some _ => (<[p := content]> d, false)
  | None => (d, true)
  end.

(** The runs of [convert_file]. *)
Inductive file_run (sys : Platform) (md : MarkItDown) (req : Request)
    (d : gmap string (list byte)) : Ran response -> Prop :=
| file_run_no_file :
    Dict.get "file" (files req) = None ->
    parse_fault req = None ->
    file_run sys md req d
      (mkRan (Returned (jsonify [("error", JStr "No file provided")], 400)) d [])
| file_run_no_name f :
    Dict.get "file" (files req) = Some f ->
    filename f = EmptyString ->
    parse_fault req = None ->
    file_run sys md req d
      (mkRan (Returned (jsonify [("error", JStr "No file selected")], 400)) d [])
| file_run_not_staged f e d' evs :
    Dict.get "file" (files req) = Some f ->
    filename f <> EmptyString ->
    stage_upload sys f (Dict.get_default "filename" (filename f) (form req)) d
      = mkRan (Raised e) d' evs ->
    is_Exception e = true ->
    parse_fault req = None ->
    file_run sys md req d
      (mkRan (Returned (failure e)) d' (evs ++ error_logs "Error converting file: " e))
| file_run_converted f p res :
    let name := Dict.get_default "filename" (filename f) (form req) in
    Dict.get "file" (files req) = Some f ->
    filename f <> EmptyString ->
    stage_upload sys f name d
      = mkRan (Returned p) (<[p := stream f]> d) [TempFileCreated p; FileSaved p] ->
    d !! p = None ->
    md_convert md (<[p := stream f]> d) (JStr p) = Returned res ->
    parse_fault req = None ->
    file_run sys md req d
      (mkRan (Returned
                (jsonify [("success", JBool true);
                          ("filename", JStr name);
                          ("markdown", JStr (text_of res));
                          ("original_size", JInt (Z.of_nat (length (stream f))));
                          ("markdown_size", JInt (len (text_of res)))], 200))
             (fst (cleaned sys p (stream f) d))
             [TempFileCreated p; FileSaved p;
              Log INFO [Lit "Converting file: "; Val (JStr name)];
              LibraryCall (JStr p) (Returned res);
              Log INFO [Lit "Successfully converted "; Val (JStr name);
                        Lit " to markdown ("; Val (JInt (len (text_of res)));
                        Lit " characters)"];
              Unlink p (snd (cleaned sys p (stream f) d))])
| file_run_conversion_failed f p e :
    let name := Dict.get_default "filename" (filename f) (form req) in
    Dict.get "file" (files req) = Some f ->
    filename f <> EmptyString ->
    stage_upload sys f name d
      = mkRan (Returned p) (<[p := stream f]> d) [TempFileCreated p; FileSaved p] ->
    d !! p = None ->
    md_convert md (<[p := stream f]> d) (JStr p) = Raised e ->
    is_Exception e = true ->
    parse_fault req = None ->
    file_run sys md req d
      (mkRan (Returned (failure e))
             (fst (cleaned sys p (stream f) d))
             ([TempFileCreated p; FileSaved p;
               Log INFO [Lit "Converting file: "; Val (JStr name)];
               LibraryCall (JStr p) (Raised e);
               Unlink p (snd (cleaned sys p (stream f) d))]
              ++ error_logs "Error converting file: " e))
| file_run_unparsed e :
    parse_fault req = Some e ->
    is_Exception e = true ->
    file_run sys md req d
      (mkRan (Returned (failure e)) d (error_logs "Error converting file: " e))
| file_run_unparsed_escapes e :
    parse_fault req = Some e ->
    is_Exception e = false ->
    file_run sys md req d (mkRan (Raised e) d [])
| file_run_staging_escapes f e d' evs :
    Dict.get "file" (files req) = Some f ->
    filename f <> EmptyString ->
    stage_upload sys f (Dict.get_default "filename" (filename f) (form req)) d
      = mkRan (Raised e) d' evs ->
    is_Exception e = false ->
    parse_fault req = None ->
    file_run sys md req d (mkRan (Raised e) d' evs)
| file_run_conversion_escapes f p e :
    let name := Dict.get_default "filename" (filename f) (form req) in
    Dict.get "file" (files req) = Some f ->
    filename f <> EmptyString ->
    stage_upload sys f name d
      = mkRan (Returned p) (<[p := stream f]> d) [TempFileCreated p; FileSaved p] ->
    d !! p = None ->
    md_convert md (<[p := stream f]> d) (JStr p) = Raised e ->
    is_Exception e = false ->
    parse_fault req = None ->
    file_run sys md req d
      (mkRan (Raised e)
             (fst (cleaned sys p (stream f) d))
             [TempFileCreated p; FileSaved p;
              Log INFO [Lit "Converting file: "; Val (JStr name)];
              LibraryCall (JStr p) (Raised e);
              Unlink p (snd (cleaned sys p (stream f) d))]).

(** The runs of [convert_url]. *)
Inductive url_run (md : MarkItDown) (req : Request)
    (d : gmap string (list byte)) : Ran response -> Prop :=
| url_run_no_url data :
    get_json req = Returned data ->
    (Py.truthy data = false \/ Py.contains "url" data = Returned false) ->
    url_run md req d
      (mkRan (Returned (jsonify [("error", JStr "No URL provided")], 400)) d [])
| url_run_rejected e :
    (get_json req = Raised e
     \/ exists data, get_json req = Returned data /\ Py.truthy data = true
          /\ (Py.contains "url" data = Raised e
              \/ Py.contains "url" data = Returned true
                 /\ Py.getitem data "url" = Raised e)) ->
    is_Exception e = true ->
    url_run md req d
      (mkRan (Returned (failure e)) d (error_logs "Error converting URL: " e))
| url_run_converted data url res :
    get_json req = Returned data ->
    Py.truthy data = true ->
    Py.contains "url" data = Returned true ->
    Py.getitem data "url" = Returned url ->
    md_convert md d url = Returned res ->
    url_run md req d
      (mkRan (Returned
                (jsonify [("success", JBool true);
                          ("url", url);
                          ("markdown", JStr (text_of res));
                          ("markdown_size", JInt (len (text_of res)))], 200))
             d
             [Log INFO [Lit "Converting URL: "; Val url];
              LibraryCall url (Returned res);
              Log INFO [Lit "Successfully converted URL "; Val url;
                        Lit " to markdown ("; Val (JInt (len (text_of res)));
                        Lit " characters)"]])
| url_run_conversion_failed data url e :
    get_json req = Returned data ->
    Py.truthy data = true ->
    Py.contains "url" data = Returned true ->
    Py.getitem data "url" = Returned url ->
    md_convert md d url = Raised e ->
    is_Exception e = true ->
    url_run md req d
      (mkRan (Returned (failure e)) d
             ([Log INFO [Lit "Converting URL: "; Val url];
               LibraryCall url (Raised e)]
              ++ error_logs "Error converting URL: " e))
| url_run_rejected_escapes e :
    get_json req = Raised e ->
    is_Exception e = false ->
    url_run md req d (mkRan (Raised e) d [])
| url_run_conversion_escapes data url e :
    get_json req = Returned data ->
    Py.truthy data = true ->
    Py.contains "url" data = Returned true ->
    Py.getitem data "url" = Returned url ->
    md_convert md d url = Raised e ->
    is_Exception e = false ->
    url_run md req d
      (mkRan (Raised e) d
             [Log INFO [Lit "Converting URL: "; Val url];
              LibraryCall url (Raised e)]).

(** ** Concrete platforms, converters and requests *)

(** A converter that decodes a local file as text and cannot fetch
    anything else. *)
Definition md_text : MarkItDown :=
  {| md_convert := fun d source =>
       match source with
       | JStr p =>
           match d !! p with
           | Some content =>
               Returned (Some {| text_content := String.string_of_list_byte content |})
           | None => Raised (Exn OtherException ("Could not convert " +:+ p))
           end
       | _ => Raised (Exn OtherException "Could not convert the source")
       end |}.

(** A converter that returns [None] for every source. *)
Definition md_none : MarkItDown := {| md_convert := fun _ _ => Returned None |}.

(** A platform on which nothing fails; the temporary names are
    [tmpabcdefgh] and then [tmp01234567]. *)
Definition sys_ok : Platform :=
  {| tempdir := "/tmp";
     candidate_names := [[0; 1; 2; 3; 4; 5; 6; 7]; [26; 27; 28; 29; 30; 31; 32; 33]]%nat;
     mkstemp_fault := None;
     save_fault := None;
     unlink_fault := None |}.

(** Another platform: its own temporary directory and names. *)
Definition sys_var_tmp : Platform :=
  {| tempdir := "/var/tmp/";
     candidate_names := [[36; 25; 24; 23; 22; 21; 20; 19]]%nat;
     mkstemp_fault := None;
     save_fault := None;
     unlink_fault := None |}.

Definition disk_full : exn := Exn OSError "[Errno 28] No space left on device".

(** The disk is full when the upload is written. *)
Definition sys_disk_full : Platform :=
  {| tempdir := "/tmp";
     candidate_names := [[0; 1; 2; 3; 4; 5; 6; 7]]%nat;
     mkstemp_fault := None;
     save_fault := Some disk_full;
     unlink_fault := None |}.

Definition unsupported_media_type : exn :=
  Exn HTTPException "415 Unsupported Media Type: Did not attempt to load JSON data because the request Content-Type was not 'application/json'.".

(** A multipart request with the given files and form fields. *)
Definition multipart (fs : list (string * FileStorage)) (fields : list (string * string))
    : Request :=
  {| parse_fault := None; files := fs; form := fields;
     get_json := Raised unsupported_media_type |}.

(** A request whose body is the JSON text of [data]. *)
Definition json_request (data : json) : Request :=
  {| parse_fault := None; files := []; form := []; get_json := Returned data |}.

(** The upload of the spec's scenario: the bytes [# Hello] as [test.md]. *)
Definition hello_md : FileStorage :=
  {| filename := "test.md"; stream := String.list_byte_of_string "# Hello" |}.

Definition req_hello : Request := multipart [("file", hello_md)] [].

Definition req_without_file : Request := multipart [] [("filename", "test.md")].

(** A named upload with an empty [filename] form field. *)
Definition req_override_empty : Request := multipart [("file", hello_md)] [("filename", EmptyString)].

(** An upload without a name, with a [filename] form field. *)
Definition req_unnamed_override : Request :=
  multipart [("file", {| filename := EmptyString; stream := String.list_byte_of_string "# Hello" |})]
            [("filename", "test.md")].

(** The same bytes uploaded as [upload.bin], with the form field
    [filename] set to [test.md]. *)
Definition req_renamed : Request :=
  multipart [("file", {| filename := "upload.bin";
                         stream := String.list_byte_of_string "# Hello" |})]
            [("filename", "test.md")].

(** A request without a file whose form data does not load: more form
    parts than the parser accepts. *)
Definition too_many_parts : exn :=
  Exn HTTPException "413 Request Entity Too Large: The data value transmitted exceeds the capacity limit.".

Definition req_unparsed : Request :=
  {| parse_fault := Some too_many_parts; files := []; form := [];
     get_json := Raised unsupported_media_type |}.

(** A converter that is interrupted on every call. *)
Definition md_interrupted : MarkItDown :=
  {| md_convert := fun _ _ => Raised (Exn KeyboardInterrupt EmptyString) |}.

(** The body [5] sent as [application/json]. *)
Definition req_json_number : Request := json_request (JInt 5).

(** * Properties *)

(** ** The path functions on examples *)

Example splitext_md : Path.splitext "test.md" = ("test", ".md").
Proof. reflexivity. Qed.

Example splitext_hidden : Path.splitext "/home/u/.bashrc" = ("/home/u/.bashrc", EmptyString).
Proof. reflexivity. Qed.

Example splitext_dir_dot : Path.splitext "a.b/c" = ("a.b/c", EmptyString).
Proof. reflexivity. Qed.

Example splitext_two : Path.splitext "x/archive.tar.gz" = ("x/archive.tar", ".gz").
Proof. reflexivity. Qed.

Example join_tmp : Path.join "/tmp" "tmpab12.md" = "/tmp/tmpab12.md".
Proof. reflexivity. Qed.

(** ** Runs of the blocks of the view functions *)

(** Unfolds the monad and the calls a view function is made of, leaving
    the matches on what the platform, the library and the disk answer. *)
Ltac run :=
  cbv beta iota zeta delta
    [convert_file_failed convert_url_failed url_missing convert_given_url
     health_check NamedTemporaryFile save getsize unlink convert files_getitem
     request_files request_form
     logger_info logger_error try_except try_finally
     mbind M_bind bind mret M_ret ret raise emit get_disk put_disk lift
     negb].

Lemma first_free_Some (d : gmap string (list byte)) (paths : list string) (p : string) :
  first_free d paths = Some p -> d !! p = None /\ In p paths.
Proof.
  induction paths as [|q paths IH]; simpl; [discriminate|].
  destruct (d !! q) eqn:Hq.
  - intros H. destruct (IH H). auto.
  - intros [= <-]. auto.
Qed.

Lemma stage_upload_run sys f name d : staged sys f name d (stage_upload sys f name d).
Proof.
  unfold stage_upload. run.
  destruct (mkstemp_fault sys) as [e|] eqn:Hm; [by apply staged_mkstemp_fault|].
  destruct (first_free d _) as [p|] eqn:Hfree; [|by apply staged_no_name].
  destruct (save_fault sys) as [e|] eqn:Hs; run.
  - by apply staged_save_fault.
  - rewrite insert_insert_eq. by apply staged_ok.
Qed.

(** The inner [try] body on a staged file. *)
Lemma convert_staged_run md name p d content :
  d !! p = Some content ->
  convert_staged md name p d =
  match md_convert md d (JStr p) with
  | Returned res =>
      mkRan (Returned
               (jsonify [("success", JBool true);
                         ("filename", JStr name);
                         ("markdown", JStr (text_of res));
                         ("original_size", JInt (Z.of_nat (length content)));
                         ("markdown_size", JInt (len (text_of res)))], 200))
            d
            [Log INFO [Lit "Converting file: "; Val (JStr name)];
             LibraryCall (JStr p) (Returned res);
             Log INFO [Lit "Successfully converted "; Val (JStr name);
                       Lit " to markdown ("; Val (JInt (len (text_of res)));
                       Lit " characters)"]]
  | Raised e =>
      mkRan (Raised e) d
            [Log INFO [Lit "Converting file: "; Val (JStr name)];
             LibraryCall (JStr p) (Raised e)]
  end.
Proof.
  intros Hp. unfold convert_staged. run.
  destruct (md_convert md d (JStr p)) as [res|e]; run; [|done].
  by rewrite Hp.
Qed.

(** The [finally] block never raises: an [OSError] of [os.unlink] is
    passed over. *)
Lemma cleanup_run sys p d :
  cleanup sys p d =
  match unlink_fault sys with
  | Some _ => mkRan (Returned tt) d [Unlink p false]
  | None =>
      match d !! p with
      | Some _ => mkRan (Returned tt) (delete p d) [Unlink p true]
      | None => mkRan (Returned tt) d [Unlink p false]
      end
  end.
Proof.
  unfold cleanup. run.
  destruct (unlink_fault sys); run; [done|].
  by destruct (d !! p).
Qed.

(** The exceptions of the operators are [Exception]s. *)
Lemma contains_raises_Exception k v e :
  Py.contains k v = Raised e -> is_Exception e = true.
Proof. destruct v; cbn; intros [= <-]; reflexivity. Qed.

Lemma getitem_raises_Exception v k e :
  Py.getitem v k = Raised e -> is_Exception e = true.
Proof.
  destruct v as [| | | | | |m]; cbn; try (intros [= <-]; reflexivity).
  destruct (Dict.get k m); intros [= <-]. reflexivity.
Qed.

Lemma convert_file_run sys md req d : file_run sys md req d (convert_file sys md req d).
Proof.
  unfold convert_file. run.
  destruct (parse_fault req) as [e|] eqn:Hparse; run.
  { destruct (is_Exception e) eqn:He; run;
      [by apply file_run_unparsed|by apply file_run_unparsed_escapes]. }
  unfold Dict.mem.
  destruct (Dict.get "file" (files req)) as [f|] eqn:Hf; run;
    [|by apply file_run_no_file].
  destruct (String.eqb_spec (filename f) EmptyString) as [Hn|Hn]; [by eapply file_run_no_name|].
  pose proof (stage_upload_run sys f (Dict.get_default "filename" (filename f) (form req)) d) as Hst.
  remember (stage_upload sys f _ d) as st eqn:Est. symmetry in Est.
  destruct Hst as [e He|Hm Hfree|p e Hm Hfree Hs|p Hm Hfree Hs].
  1-3: match goal with
       | |- context [is_Exception ?x] =>
           destruct (is_Exception x) eqn:Hexn;
           [by eapply file_run_not_staged|by eapply file_run_staging_escapes]
       end.
  destruct (first_free_Some _ _ _ Hfree) as [Hfresh _].
  rewrite (convert_staged_run md _ p _ (stream f)) by apply lookup_insert_eq.
  destruct (md_convert md (<[p:=stream f]> d) (JStr p)) as [res|e] eqn:Hc;
    cbv beta iota; rewrite cleanup_run, lookup_insert_eq, delete_insert_eq,
      (delete_id _ _ Hfresh).
  - pose proof (file_run_converted sys md req d f p res Hf Hn Est Hfresh Hc Hparse) as Hrun.
    unfold cleaned in Hrun. by destruct (unlink_fault sys).
  - destruct (is_Exception e) eqn:Hexn.
    + pose proof (file_run_conversion_failed sys md req d f p e Hf Hn Est Hfresh Hc Hexn Hparse)
        as Hrun.
      unfold cleaned in Hrun. destruct (unlink_fault sys); cbv beta iota; by rewrite Hexn.
    + pose proof (file_run_conversion_escapes sys md req d f p e Hf Hn Est Hfresh Hc Hexn Hparse)
        as Hrun.
      unfold cleaned in Hrun. destruct (unlink_fault sys); cbv beta iota; by rewrite Hexn.
Qed.

Lemma convert_url_run md req d : url_run md req d (convert_url md req d).
Proof.
  unfold convert_url. run.
  destruct (get_json req) as [data|e] eqn:Hj.
  2: { destruct (is_Exception e) eqn:Hexn;
         [apply url_run_rejected; [by left|done]|by apply url_run_rejected_escapes]. }
  destruct (Py.truthy data) eqn:Ht; cbv beta iota delta [negb];
    [|eapply url_run_no_url; eauto].
  destruct (Py.contains "url" data) as [[]|e] eqn:Hin; cbv beta iota delta [negb].
  - destruct (Py.getitem data "url") as [url|e] eqn:Hget; cbv beta iota.
    + destruct (md_convert md d url) as [res|e] eqn:Hc; cbv beta iota.
      * by eapply url_run_converted.
      * destruct (is_Exception e) eqn:Hexn;
          [by eapply url_run_conversion_failed|by eapply url_run_conversion_escapes].
    + rewrite (getitem_raises_Exception _ _ _ Hget).
      apply url_run_rejected; [|by eapply getitem_raises_Exception].
      right. exists data. auto.
  - eapply url_run_no_url; eauto.
  - rewrite (contains_raises_Exception _ _ _ Hin).
    apply url_run_rejected; [|by eapply contains_raises_Exception].
    right. exists data. auto.
Qed.

(** ** The extension of a staged file *)

Lemma str_app_nil_l (s : string) : EmptyString +:+ s = s.
Proof. reflexivity. Qed.

Lemma str_app_cons (c : ascii) (a b : string) : String c a +:+ b = String c (a +:+ b).
Proof. reflexivity. Qed.

Lemma str_app_nil_r (s : string) : s +:+ EmptyString = s.
Proof. induction s as [|c s IH]; rewrite ?str_app_cons, ?str_app_nil_l; congruence. Qed.

Lemma str_app_assoc (a b c : string) : (a +:+ b) +:+ c = a +:+ (b +:+ c).
Proof. induction a as [|x a IH]; rewrite ?str_app_cons, ?str_app_nil_l; congruence. Qed.

Lemma str_length_app (a b : string) :
  String.length (a +:+ b) = (String.length a + String.length b)%nat.
Proof.
  induction a as [|x a IH]; rewrite ?str_app_cons, ?str_app_nil_l; simpl; congruence.
Qed.

Lemma drop_app_length (a b : string) : Str.drop (String.length a) (a +:+ b) = b.
Proof.
  induction a as [|x a IH]; rewrite ?str_app_cons, ?str_app_nil_l; simpl;
    [by destruct b|done].
Qed.

Lemma get_app_length (a b : string) (c : ascii) :
  String.get (String.length a) (a +:+ String c b) = Some c.
Proof. induction a as [|x a IH]; rewrite ?str_app_cons, ?str_app_nil_l; simpl; done. Qed.

Lemma rfind_range (c : ascii) (s : string) : -1 <= Str.rfind c s < slen s.
Proof.
  induction s as [|a s IH]; simpl Str.rfind; simpl String.length; [lia|].
  destruct (Z.leb_spec 0 (Str.rfind c s)); [lia|].
  destruct (Ascii.eqb a c); lia.
Qed.

Lemma rfind_absent (c : ascii) (s : string) : Str.rfind c s < 0 -> Str.rfind c s = -1.
Proof. pose proof (rfind_range c s). lia. Qed.

(** The last occurrence in a concatenation is the last one in the right
    part, if there is one. *)
Lemma rfind_app (c : ascii) (a b : string) :
  Str.rfind c (a +:+ b) =
  if 0 <=? Str.rfind c b then slen a + Str.rfind c b else Str.rfind c a.
Proof.
  induction a as [|x a IH].
  - rewrite str_app_nil_l. simpl.
    destruct (Z.leb_spec 0 (Str.rfind c b)); [lia|].
    by apply rfind_absent.
  - rewrite str_app_cons.
    simpl Str.rfind. rewrite IH. simpl String.length.
    destruct (Z.leb_spec 0 (Str.rfind c b)) as [Hb|Hb].
    + pose proof (Zle_0_nat (String.length a)).
      destruct (Z.leb_spec 0 (slen a + Str.rfind c b)); lia.
    + done.
Qed.

(** A string is cut at the last occurrence of a character it has. *)
Lemma rfind_split (c : ascii) (s : string) :
  0 <= Str.rfind c s ->
  exists a rest, s = a +:+ String c rest
              /\ slen a = Str.rfind c s /\ Str.rfind c rest = -1.
Proof.
  induction s as [|x s IH]; simpl Str.rfind; [lia|].
  destruct (Z.leb_spec 0 (Str.rfind c s)) as [Hs|Hs].
  - intros _. destruct (IH Hs) as (a & rest & -> & Hlen & Hrest).
    exists (String x a), rest. simpl String.length. split; [done|]. split; [lia|done].
  - destruct (Ascii.eqb_spec x c) as [->|Hne]; [|lia].
    intros _. exists EmptyString, s. split; [done|]. split; [done|]. by apply rfind_absent.
Qed.

Lemma endswith_rfind (c : ascii) (s : string) :
  Str.endswith c s = true -> Str.rfind c s = slen s - 1.
Proof.
  induction s as [|x s IH]; [done|].
  destruct s as [|y s].
  - simpl. intros ->. done.
  - intros H. change (Str.endswith c (String x (String y s))) with (Str.endswith c (String y s)) in H.
    specialize (IH H).
    change (Str.rfind c (String x (String y s))) with
      (let r := Str.rfind c (String y s) in
       if 0 <=? r then 1 + r else if Ascii.eqb x c then 0 else -1).
    cbv zeta. rewrite IH.
    change (String.length (String x (String y s))) with (S (String.length (String y s))).
    simpl String.length.
    destruct (Z.leb_spec 0 (Z.of_nat (S (String.length s)) - 1)); lia.
Qed.


(** An extension is empty, or a dot followed by characters that are
    neither dots nor separators. *)
Lemma splitext_ext_shape (name : string) :
  snd (Path.splitext name) = EmptyString
  \/ exists rest, snd (Path.splitext name) = String Path.extsep rest
               /\ Str.rfind Path.extsep rest = -1
               /\ Str.rfind Path.sep rest = -1.
Proof.
  unfold Path.splitext.
  destruct (Z.ltb_spec (Str.rfind Path.sep name) (Str.rfind Path.extsep name)) as [Hlt|];
    [|by left].
  destruct (Path.skip_leading_dots _ _ _); [|by left].
  right. cbn [andb snd].
  pose proof (rfind_range Path.sep name) as Hsep.
  assert (0 <= Str.rfind Path.extsep name) as Hdot by lia.
  destruct (rfind_split _ _ Hdot) as (a & rest & Hname & Hlen & Hrest).
  exists rest. rewrite <- Hlen, Nat2Z.id.
  rewrite Hname at 1. rewrite drop_app_length. split; [done|]. split; [done|].
  rewrite <- Hlen in Hlt. rewrite Hname, rfind_app in Hlt.
  destruct (Z.leb_spec 0 (Str.rfind Path.sep (String Path.extsep rest))) as [|Hneg]; [lia|].
  simpl Str.rfind in Hneg.
  destruct (Z.leb_spec 0 (Str.rfind Path.sep rest)) as [Hr|Hr].
  - pose proof (rfind_range Path.sep rest). lia.
  - by apply rfind_absent.
Qed.

Lemma rfind_notin (c : ascii) (s : string) :
  ~ In c (list_ascii_of_string s) -> Str.rfind c s = -1.
Proof.
  induction s as [|x s IH]; [done|].
  cbn [list_ascii_of_string In Str.rfind]. intros Hc.
  rewrite IH by tauto. change (0 <=? -1) with false; cbv iota.
  destruct (Ascii.eqb_spec x c); [tauto|done].
Qed.

(** The characters of a temporary name are letters, digits and the
    underscore. *)
Lemma random_name_chars (c : ascii) (choices : list nat) :
  In c (list_ascii_of_string (random_name choices)) -> In c characters.
Proof.
  unfold random_name. rewrite list_ascii_of_string_of_list_ascii.
  rewrite in_map_iff. intros (i & <- & _).
  apply nth_In, Nat.mod_upper_bound. done.
Qed.

Lemma temp_basename_no (c : ascii) (choices : list nat) :
  ~ In c characters -> Str.rfind c ("tmp" +:+ random_name choices) = -1.
Proof.
  intros Hc. rewrite rfind_app.
  rewrite (rfind_notin c (random_name choices))
    by (intros Hin; by apply Hc, random_name_chars with choices).
  change (0 <=? -1) with false; cbv iota. apply rfind_notin.
  intros Hin. apply Hc. cbn in Hin. unfold characters. cbn.
  intuition.
Qed.

(** [os.path.join] puts a directory part, empty or ended by the
    separator, before a relative component. *)
Lemma join_relative (a b : string) :
  exists dir, Path.join a (String "t" b) = dir +:+ String "t" b
            /\ Str.rfind Path.sep dir = slen dir - 1.
Proof.
  unfold Path.join, Path.sep. cbn [Str.startswith Ascii.eqb Bool.eqb andb].
  destruct (String.eqb_spec a EmptyString) as [->|Ha]; cbn [orb].
  - exists EmptyString. split; reflexivity.
  - destruct (Str.endswith "/" a) eqn:Hend.
    + exists a. split; [reflexivity|]. by apply endswith_rfind.
    + exists (a +:+ "/"). split.
      * by rewrite str_app_assoc.
        
      * rewrite rfind_app, str_length_app. simpl. lia.
Qed.

(** The staged file has the extension it was given. *)
Lemma temp_path_ext (sys : Platform) (name : string) (choices : list nat) :
  snd (Path.splitext (temp_path sys (snd (Path.splitext name)) choices))
  = snd (Path.splitext name).
Proof.
  unfold temp_path.
  set (suffix := snd (Path.splitext name)).
  set (tail := "mp" +:+ random_name choices).
  assert (Hdot : Str.rfind Path.extsep (String "t" tail) = -1)
    by (apply (temp_basename_no _ choices); vm_compute; intuition discriminate).
  assert (Hsep : Str.rfind Path.sep (String "t" tail) = -1)
    by (apply (temp_basename_no _ choices); vm_compute; intuition discriminate).
  destruct (join_relative (tempdir sys) (tail +:+ suffix)) as (dir & Hjoin & Hdir).
  change ("tmp" +:+ random_name choices +:+ suffix) with (String "t" (tail +:+ suffix)).
  rewrite Hjoin. clear Hjoin.
  rewrite <- str_app_cons, <- str_app_assoc.
  set (base := String "t" tail) in *.
  assert (Hbase : slen (dir +:+ base) = slen dir + 1 + slen tail)
    by (rewrite str_length_app; unfold base; simpl String.length; lia).
  assert (HsepA : Str.rfind Path.sep (dir +:+ base) = slen dir - 1)
    by (rewrite rfind_app, Hsep; done).
  assert (HdotA : Str.rfind Path.extsep (dir +:+ base) <= slen dir - 1)
    by (rewrite rfind_app, Hdot; change (0 <=? -1) with false; cbv iota; pose proof (rfind_range Path.extsep dir); lia).
  destruct (splitext_ext_shape name) as [Hempty|(rest & Hext & Hnodot & Hnosep)];
    fold suffix in Hempty || fold suffix in Hext.
  - rewrite Hempty, str_app_nil_r. unfold Path.splitext.
    destruct (Z.ltb_spec (Str.rfind Path.sep (dir +:+ base))
                         (Str.rfind Path.extsep (dir +:+ base))); [lia|done].
  - rewrite Hext. unfold Path.splitext.
    assert (Hs : Str.rfind Path.sep ((dir +:+ base) +:+ String Path.extsep rest)
                 = slen dir - 1).
    { rewrite rfind_app.
      replace (Str.rfind Path.sep (String Path.extsep rest)) with (-1)
        by (simpl; by rewrite Hnosep).
      done. }
    assert (Hd : Str.rfind Path.extsep ((dir +:+ base) +:+ String Path.extsep rest)
                 = slen (dir +:+ base)).
    { rewrite rfind_app.
      replace (Str.rfind Path.extsep (String Path.extsep rest)) with 0
        by (simpl; by rewrite Hnodot).
      change (0 <=? 0) with true. cbv iota. lia. }
    rewrite Hs, Hd.
    destruct (Z.ltb_spec (slen dir - 1) (slen (dir +:+ base))); [|lia].
    replace (Z.to_nat (slen (dir +:+ base) - (slen dir - 1 + 1)))
      with (S (String.length tail)) by lia.
    replace (slen dir - 1 + 1) with (slen dir) by lia.
    cbn [Path.skip_leading_dots andb].
    rewrite Nat2Z.id, str_app_assoc. unfold base at 1.
    rewrite str_app_cons, get_app_length.
    unfold Path.extsep at 1. cbn [Ascii.eqb Bool.eqb snd].
    by rewrite Nat2Z.id, <- str_app_assoc, drop_app_length.
Qed.


(** ** The view functions answer, or let a [BaseException] through *)

Lemma convert_file_returns sys md req d :
  (exists resp, result (convert_file sys md req d) = Returned resp)
  \/ (exists e, result (convert_file sys md req d) = Raised e /\ is_Exception e = false).
Proof. destruct (convert_file_run sys md req d); cbn; eauto. Qed.

Lemma convert_url_returns md req d :
  (exists resp, result (convert_url md req d) = Returned resp)
  \/ (exists e, result (convert_url md req d) = Raised e /\ is_Exception e = false).
Proof. destruct (convert_url_run md req d); cbn; eauto. Qed.

(** A failed validation of [convert_file] touches nothing. *)
Lemma failed_validation_no_effect sys md req d body :
  result (convert_file sys md req d) = Returned (body, 400) ->
  events (convert_file sys md req d) = [] /\ final_disk (convert_file sys md req d) = d.
Proof. destruct (convert_file_run sys md req d); cbn; intros [=]; done. Qed.

(** An [Exception] of the staging is answered with its message and the
    status 500. *)
Lemma convert_file_staging_exception sys md req d f e :
  parse_fault req = None ->
  Dict.get "file" (files req) = Some f ->
  filename f <> EmptyString ->
  result (stage_upload sys f (Dict.get_default "filename" (filename f) (form req)) d)
    = Raised e ->
  is_Exception e = true ->
  result (convert_file sys md req d) = Returned (failure e).
Proof.
  intros Hparse Hf Hn Hraise Hexn.
  destruct (convert_file_run sys md req d) as
    [Hf'|f' Hf' Hn'|f' e' d' evs' Hf' Hn' Hst|f' p res name Hf' Hn' Hst Hfresh Hc
    |f' p e' name Hf' Hn' Hst Hfresh Hc
    |e0 ? ?|e0 ? ?|f' e' d' evs' Hf' Hn' Hst ? ?
    |f' p e' name Hf' Hn' Hst Hfresh Hc ? ?]; try subst name; simplify_eq;
    rewrite Hst in Hraise; cbn in *; simplify_eq; congruence.
Qed.

(** So is an [Exception] of the library. *)
Lemma convert_file_library_exception sys md req d src e :
  In (LibraryCall src (Raised e)) (events (convert_file sys md req d)) ->
  is_Exception e = true ->
  result (convert_file sys md req d) = Returned (failure e).
Proof.
  destruct (convert_file_run sys md req d) as
    [Hf'|f' Hf' Hn'|f' e' d' evs' Hf' Hn' Hst|f' p res name Hf' Hn' Hst Hfresh Hc
    |f' p e' name Hf' Hn' Hst Hfresh Hc
    |e0 ? ?|e0 ? ?|f' e' d' evs' Hf' Hn' Hst ? ?
    |f' p e' name Hf' Hn' Hst Hfresh Hc ? ?]; cbn; unfold error_logs;
    try (intuition (simplify_eq; congruence)).
  all: pose proof (stage_upload_run sys f'
                (Dict.get_default "filename" (filename f') (form req)) d) as Hs;
    rewrite Hst in Hs;
    inversion Hs; subst; cbn; intuition discriminate.
Qed.

Lemma convert_url_exception md req d src e :
  get_json req = Raised e
  \/ In (LibraryCall src (Raised e)) (events (convert_url md req d)) ->
  is_Exception e = true ->
  result (convert_url md req d) = Returned (failure e).
Proof.
  destruct (convert_url_run md req d) as
    [data Hj Hno|e' Hrej Hexn'|data url res Hj Ht Hin Hget Hc
    |data url e' Hj Ht Hin Hget Hc Hexn'
    |e' Hj Hexn'|data url e' Hj Ht Hin Hget Hc Hexn'];
    cbn; unfold error_logs; intros Hor Hexn;
    repeat (destruct Hor as [Hor|Hor]); simplify_eq; try congruence; try done.
  destruct Hrej as [Hj|(data & Hj & _)]; congruence.
Qed.

(** ** Staged files (C1) *)

(** C1, as stated, fails: a request without a [file] field is answered
    before any temporary file is created, so the run does not create one
    staged file and delete it. *)
Lemma no_file_no_staged_file :
  ~ one_staged_file_created_and_deleted (convert_file sys_ok md_text req_without_file ∅).
Proof. intros (p & Hcreated & _). vm_compute in Hcreated. discriminate. Qed.

(** C1, amended: once the upload has been saved to the staged file, that
    file is the only temporary file of the invocation, it did not exist
    before, [os.unlink] is called on it exactly once before the handler
    returns, whatever the conversion did, and unless that call fails the
    file is removed and no longer on disk. *)
Theorem convert_file_staged_file_deleted sys md req d p :
  In (FileSaved p) (events (convert_file sys md req d)) ->
  d !! p = None
  /\ created (events (convert_file sys md req d)) = [p]
  /\ unlink_attempts (events (convert_file sys md req d)) = [p]
  /\ (unlink_fault sys = None ->
      unlinked (events (convert_file sys md req d)) = [p]
      /\ final_disk (convert_file sys md req d) !! p = None).
Proof.
  destruct (convert_file_run sys md req d) as
    [Hf|f Hf Hn|f e d' evs Hf Hn Hst|f q res name Hf Hn Hst Hfresh Hc
    |f q e name Hf Hn Hst Hfresh Hc
    |e0 ? ?|e0 ? ?|f e d' evs Hf Hn Hst ? ?
    |f q e name Hf Hn Hst Hfresh Hc ? ?]; cbn; try tauto.
  - pose proof (stage_upload_run sys f
                  (Dict.get_default "filename" (filename f) (form req)) d) as Hs.
    rewrite Hst in Hs.
    inversion Hs; subst; cbn; intuition discriminate.
  - intros [|[[= ->]|Hin]]; [discriminate| |intuition discriminate].
    unfold cleaned. split; [done|]. split; [done|]. split; [done|].
    intros ->. done.
  - intros [|[[= ->]|Hin]]; [discriminate| |intuition discriminate].
    unfold cleaned. split; [done|]. split; [done|]. split; [done|].
    intros ->. done.
  - intuition discriminate.
  - pose proof (stage_upload_run sys f
                  (Dict.get_default "filename" (filename f) (form req)) d) as Hs.
    rewrite Hst in Hs.
    inversion Hs; subst; cbn; intuition discriminate.
  - intros [|[[= ->]|Hin]]; [discriminate| |intuition discriminate].
    unfold cleaned. split; [done|]. split; [done|]. split; [done|].
    intros ->. done.
Qed.

Lemma convert_file_staged_file_deleted_witness :
  let r := convert_file sys_ok md_text req_hello ∅ in
  In (FileSaved "/tmp/tmpabcdefgh.md") (events r)
  /\ created (events r) = ["/tmp/tmpabcdefgh.md"]
  /\ unlink_attempts (events r) = ["/tmp/tmpabcdefgh.md"]
  /\ unlinked (events r) = ["/tmp/tmpabcdefgh.md"]
  /\ final_disk r !! "/tmp/tmpabcdefgh.md" = None.
Proof.
  assert (Hsaved : In (FileSaved "/tmp/tmpabcdefgh.md")
                      (events (convert_file sys_ok md_text req_hello ∅)))
    by (vm_compute; tauto).
  destruct (convert_file_staged_file_deleted sys_ok md_text req_hello ∅ _ Hsaved)
    as (_ & Hcreated & Hattempts & Hgone).
  destruct (Hgone eq_refl) as [Hunlinked Hdisk].
  cbv zeta. repeat split; assumption.
Defined.

(** ** Validation of an upload (C3) *)

(** C3, as stated, fails: an upload named [test.md] with an empty
    [filename] form field has the empty string as the filename in
    effect, and it is converted. *)
Lemma empty_override_is_converted :
  effective_filename req_override_empty = Some EmptyString
  /\ result (convert_file sys_ok md_text req_override_empty ∅)
     <> Returned (jsonify [("error", JStr "No file selected")], 400).
Proof. split; [reflexivity|]. vm_compute. discriminate. Qed.

(** C3, amended: among the requests whose form data loads (reading
    [request.files] does not raise), a request without a [file] field is
    answered [No file provided] with status 400, and a request whose
    uploaded file reports the empty string as its name is answered
    [No file selected] with status 400, whatever the [filename] form
    field says. *)
Theorem convert_file_validation sys md req d :
  parse_fault req = None ->
  (Dict.mem "file" (files req) = false ->
   result (convert_file sys md req d)
   = Returned (jsonify [("error", JStr "No file provided")], 400))
  /\ (forall f, Dict.get "file" (files req) = Some f -> filename f = EmptyString ->
      result (convert_file sys md req d)
      = Returned (jsonify [("error", JStr "No file selected")], 400)).
Proof.
  unfold Dict.mem. intros Hparse.
  destruct (convert_file_run sys md req d) as
    [Hf|f Hf Hn|f e d' evs Hf Hn Hst|f q res name Hf Hn Hst Hfresh Hc
    |f q e name Hf Hn Hst Hfresh Hc
    |e Hparse' Hexn|e Hparse' Hexn|f e d' evs Hf Hn Hst Hexn Hparse'
    |f q e name Hf Hn Hst Hfresh Hc Hexn Hparse']; cbn; try congruence;
    rewrite Hf; split; try done; intros f' [= <-] Hempty; done.
Qed.

Lemma convert_file_validation_witness :
  result (convert_file sys_ok md_text req_without_file ∅)
  = Returned (jsonify [("error", JStr "No file provided")], 400)
  /\ result (convert_file sys_ok md_text req_unnamed_override ∅)
     = Returned (jsonify [("error", JStr "No file selected")], 400).
Proof.
  split.
  - apply (proj1 (convert_file_validation sys_ok md_text req_without_file ∅ eq_refl)).
    reflexivity.
  - apply (proj2 (convert_file_validation sys_ok md_text req_unnamed_override ∅ eq_refl)
             {| filename := EmptyString; stream := String.list_byte_of_string "# Hello" |});
      reflexivity.
Defined.

(** A request without a file whose form data does not load is not
    validated at all: the exception of [request.files] is caught by the
    handler. *)
Example unparsed_request_response :
  convert_file sys_ok md_text req_unparsed ∅
  = mkRan (Returned (failure too_many_parts)) ∅
          (error_logs "Error converting file: " too_many_parts).
Proof. reflexivity. Qed.

(** What the empty override gets instead: a conversion under the empty
    name. *)
Example empty_override_response :
  result (convert_file sys_ok md_text req_override_empty ∅)
  = Returned (jsonify [("success", JBool true);
                       ("filename", JStr EmptyString);
                       ("markdown", JStr "# Hello");
                       ("original_size", JInt 7);
                       ("markdown_size", JInt 7)], 200).
Proof. reflexivity. Qed.

(** ** A JSON body that is not an object (C2) *)

(** C2 is violated: the body [5] is valid JSON without a [url] field;
    the membership test raises a [TypeError], which the handler answers
    with status 500 and not with the 400 validation error.  The library
    is not called. *)
Theorem convert_url_json_number md d :
  result (convert_url md req_json_number d)
  = Returned (jsonify [("success", JBool false);
                       ("error", JStr "argument of type 'int' is not iterable")], 500)
  /\ library_calls (events (convert_url md req_json_number d)) = [].
Proof. split; reflexivity. Qed.

(** The same happens when [request.get_json()] itself raises, as it does
    on a body that is not JSON. *)
Lemma convert_url_get_json_raises md req d e :
  get_json req = Raised e ->
  is_Exception e = true ->
  result (convert_url md req d) = Returned (failure e)
  /\ library_calls (events (convert_url md req d)) = [].
Proof.
  intros Hj Hexn. unfold convert_url. run. rewrite Hj. cbv beta iota. rewrite Hexn.
  split; reflexivity.
Qed.

(** The 400 answer is given to the bodies that are falsy ([null],
    [false], [0], the empty string, list and object) and to the objects,
    lists and strings that do not contain [url]; nothing is done for
    them. *)
Lemma convert_url_no_url md req d data :
  get_json req = Returned data ->
  Py.truthy data = false \/ Py.contains "url" data = Returned false ->
  convert_url md req d
  = mkRan (Returned (jsonify [("error", JStr "No URL provided")], 400)) d [].
Proof.
  intros Hj Hno. unfold convert_url. run. rewrite Hj.
  destruct (Py.truthy data); cbv beta iota delta [negb]; [|done].
  destruct Hno as [|Hin]; [done|]. by rewrite Hin.
Qed.

(** A string body that happens to contain [url], and a list that has it
    as an element, pass the test and fail at the subscript. *)
Example convert_url_json_string md d :
  result (convert_url md (json_request (JStr "curl")) d)
  = Returned (jsonify [("success", JBool false);
                       ("error", JStr "string indices must be integers")], 500).
Proof. reflexivity. Qed.

Example convert_url_json_list md d :
  result (convert_url md (json_request (JArr [JStr "url"])) d)
  = Returned (jsonify [("success", JBool false);
                       ("error", JStr "list indices must be integers or slices, not str")],
              500).
Proof. reflexivity. Qed.

(** ** A save that fails (C4) *)

(** C4 is violated: when [file.save] raises, the temporary file exists
    already, the exception leaves the [with] block before the inner
    [try] is entered, and the handler answers 500 without ever calling
    [os.unlink]: the staged file stays on disk. *)
Theorem failed_save_leaves_staged_file md :
  let r := convert_file sys_disk_full md req_hello ∅ in
  result r = Returned (jsonify [("success", JBool false);
                                 ("error", JStr "[Errno 28] No space left on device")], 500)
  /\ created (events r) = ["/tmp/tmpabcdefgh.md"]
  /\ unlink_attempts (events r) = []
  /\ final_disk r !! "/tmp/tmpabcdefgh.md" = Some [].
Proof. cbv zeta. repeat split; vm_compute; reflexivity. Qed.

(** ** The fields of a success response (C5, C6) *)

(** The view function a route names is one of the three. *)
Lemma view_function_cases rule method v :
  view_function rule method = Some v ->
  v = (fun _ _ _ => health_check)
  \/ v = (fun sys md req => convert_file sys md req)
  \/ v = (fun _ md req => convert_url md req).
Proof.
  unfold view_function.
  repeat (destruct (_ && _); [intros [= <-]; tauto|]).
  discriminate.
Qed.

(** C5: in every success response of a route, [markdown_size] is the
    length of [markdown]. *)
Theorem markdown_size_is_length rule method v sys md req d body status :
  view_function rule method = Some v ->
  result (v sys md req d) = Returned (body, status) ->
  field "success" body = Some (JBool true) ->
  exists s, field "markdown" body = Some (JStr s)
         /\ field "markdown_size" body = Some (JInt (len s)).
Proof.
  intros Hv. destruct (view_function_cases _ _ _ Hv) as [->|[->| ->]].
  - cbn. intros [= <- <-]. discriminate.
  - destruct (convert_file_run sys md req d) as
      [Hf|f Hf Hn|f e d' evs Hf Hn Hst|f q res name Hf Hn Hst Hfresh Hc
      |f q e name Hf Hn Hst Hfresh Hc | | | |]; cbn; intros [= <- <-]; try discriminate.
    intros _. by exists (text_of res).
  - destruct (convert_url_run md req d) as
      [data Hj Hno|e Hrej|data url res Hj Ht Hin Hget Hc|data url e Hj Ht Hin Hget Hc | |];
      cbn; intros [= <- <-]; try discriminate.
    intros _. by exists (text_of res).
Qed.

Lemma markdown_size_is_length_witness :
  exists s,
    field "markdown"
      (jsonify [("success", JBool true); ("filename", JStr "test.md");
                ("markdown", JStr "# Hello"); ("original_size", JInt 7);
                ("markdown_size", JInt 7)]) = Some (JStr s)
    /\ field "markdown_size"
         (jsonify [("success", JBool true); ("filename", JStr "test.md");
                   ("markdown", JStr "# Hello"); ("original_size", JInt 7);
                   ("markdown_size", JInt 7)]) = Some (JInt (len s)).
Proof.
  apply (markdown_size_is_length "/convert" "POST"
           (fun sys md req => convert_file sys md req) sys_ok md_text req_hello ∅ _ 200);
    reflexivity.
Defined.

(** C6: when the library returned [None], the response is a success
    with the empty markdown and the size 0. *)
Theorem no_result_is_empty_markdown rule method v sys md req d source :
  view_function rule method = Some v ->
  In (LibraryCall source (Returned None)) (events (v sys md req d)) ->
  exists body,
    result (v sys md req d) = Returned (body, 200)
    /\ field "success" body = Some (JBool true)
    /\ field "markdown" body = Some (JStr EmptyString)
    /\ field "markdown_size" body = Some (JInt 0).
Proof.
  intros Hv. destruct (view_function_cases _ _ _ Hv) as [->|[->| ->]].
  - cbn. tauto.
  - destruct (convert_file_run sys md req d) as
      [Hf|f Hf Hn|f e d' evs Hf Hn Hst|f q res name Hf Hn Hst Hfresh Hc
      |f q e name Hf Hn Hst Hfresh Hc
      |e Hparse Hexn|e Hparse Hexn|f e d' evs Hf Hn Hst Hexn Hparse
      |f q e name Hf Hn Hst Hfresh Hc Hexn Hparse]; cbn; unfold error_logs;
      try solve [intuition discriminate].
    + pose proof (stage_upload_run sys f
                    (Dict.get_default "filename" (filename f) (form req)) d) as Hs.
      rewrite Hst in Hs. inversion Hs; subst; cbn; intuition discriminate.
    + intros Hin. assert (res = None) as -> by (intuition congruence).
      eexists. split; [reflexivity|]. done.
    + pose proof (stage_upload_run sys f
                    (Dict.get_default "filename" (filename f) (form req)) d) as Hs.
      rewrite Hst in Hs. inversion Hs; subst; cbn; intuition discriminate.
  - destruct (convert_url_run md req d) as
      [data Hj Hno|e Hrej Hexn|data url res Hj Ht Hin Hget Hc
      |data url e Hj Ht Hin Hget Hc Hexn
      |e Hj Hexn|data url e Hj Ht Hin Hget Hc Hexn];
      cbn; unfold error_logs; try solve [intuition discriminate].
    intros Hev. assert (res = None) as -> by (intuition congruence).
    eexists. split; [reflexivity|]. done.
Qed.

Lemma no_result_is_empty_markdown_witness :
  exists body,
    result (convert_url md_none (json_request (JObj [("url", JStr "https://example.org/a.pdf")])) ∅)
    = Returned (body, 200)
    /\ field "success" body = Some (JBool true)
    /\ field "markdown" body = Some (JStr EmptyString)
    /\ field "markdown_size" body = Some (JInt 0).
Proof.
  apply (no_result_is_empty_markdown "/convert-url" "POST"
           (fun _ md req => convert_url md req) sys_ok md_none
           (json_request (JObj [("url", JStr "https://example.org/a.pdf")])) ∅
           (JStr "https://example.org/a.pdf")).
  - reflexivity.
  - vm_compute. tauto.
Defined.

Example no_result_file :
  result (convert_file sys_ok md_none req_hello ∅)
  = Returned (jsonify [("success", JBool true);
                       ("filename", JStr "test.md");
                       ("markdown", JStr EmptyString);
                       ("original_size", JInt 7);
                       ("markdown_size", JInt 0)], 200).
Proof. reflexivity. Qed.

(** ** Two conversions of the same upload (C7) *)

(** A successful [convert_file]: the staged path is a temporary path of
    the extension in effect, and the body reports what the library
    returned for it. *)
Lemma convert_file_success sys md req d f body status :
  Dict.get "file" (files req) = Some f ->
  result (convert_file sys md req d) = Returned (body, status) ->
  field "success" body = Some (JBool true) ->
  exists p res,
    let name := Dict.get_default "filename" (filename f) (form req) in
    snd (Path.splitext p) = snd (Path.splitext name)
    /\ md_convert md (<[p := stream f]> d) (JStr p) = Returned res
    /\ body = jsonify [("success", JBool true);
                       ("filename", JStr name);
                       ("markdown", JStr (text_of res));
                       ("original_size", JInt (Z.of_nat (length (stream f))));
                       ("markdown_size", JInt (len (text_of res)))].
Proof.
  intros Hfile.
  destruct (convert_file_run sys md req d) as
    [Hf|f' Hf Hn|f' e d' evs Hf Hn Hst|f' q res name Hf Hn Hst Hfresh Hc
    |f' q e name Hf Hn Hst Hfresh Hc | | | |]; cbn; intros [= <- <-]; try discriminate.
  intros _. assert (f' = f) as -> by congruence.
  exists q, res. cbv zeta. split; [|done].
  pose proof (stage_upload_run sys f name d) as Hs. rewrite Hst in Hs.
  inversion Hs as [| | |q' Hm Hfree Hsave]; subst.
  destruct (first_free_Some _ _ _ Hfree) as [_ Hin].
  apply in_map_iff in Hin as (choices & <- & _).
  apply temp_path_ext.
Qed.

(** C7: with a library that is a function of the staged file's content
    and extension, two successful conversions of the same bytes under
    the same filename in effect answer with the same body, so with the
    same [markdown], [markdown_size] and [original_size], whatever the
    platforms, the temporary names and the disks. *)
Theorem convert_file_deterministic sys1 sys2 md req1 req2 d1 d2 f1 f2 body1 body2 st1 st2 :
  deterministic md ->
  Dict.get "file" (files req1) = Some f1 ->
  Dict.get "file" (files req2) = Some f2 ->
  stream f1 = stream f2 ->
  effective_filename req1 = effective_filename req2 ->
  result (convert_file sys1 md req1 d1) = Returned (body1, st1) ->
  field "success" body1 = Some (JBool true) ->
  result (convert_file sys2 md req2 d2) = Returned (body2, st2) ->
  field "success" body2 = Some (JBool true) ->
  body1 = body2
  /\ exists s n,
       field "markdown" body1 = Some (JStr s)
       /\ field "markdown_size" body1 = Some (JInt (len s))
       /\ field "original_size" body1 = Some (JInt n).
Proof.
  intros Hdet Hf1 Hf2 Hstream Hname Hr1 Hs1 Hr2 Hs2.
  destruct (convert_file_success _ _ _ _ _ _ _ Hf1 Hr1 Hs1) as (p1 & res1 & Hext1 & Hc1 & ->).
  destruct (convert_file_success _ _ _ _ _ _ _ Hf2 Hr2 Hs2) as (p2 & res2 & Hext2 & Hc2 & ->).
  unfold effective_filename in Hname. rewrite Hf1, Hf2 in Hname.
  injection Hname as Hname.
  assert (res1 = res2) as ->.
  { assert (Returned res1 = Returned res2) as [=]; [|done].
    rewrite <- Hc1, <- Hc2.
    apply (Hdet _ _ p1 p2 (stream f1)).
    - apply lookup_insert_eq.
    - rewrite Hstream. apply lookup_insert_eq.
    - cbv zeta in Hext1, Hext2. by rewrite Hext1, Hext2, Hname. }
  rewrite Hname, Hstream. split; [done|].
  by exists (text_of res2), (Z.of_nat (length (stream f2))).
Qed.

Lemma md_text_deterministic : deterministic md_text.
Proof. intros d d' p p' content Hp Hp' _. cbn. by rewrite Hp, Hp'. Qed.

Lemma convert_file_deterministic_witness :
  exists body1 body2,
    result (convert_file sys_ok md_text req_hello ∅) = Returned (body1, 200)
    /\ result (convert_file sys_var_tmp md_text req_renamed {[ "/var/tmp/notes.txt" := [] ]})
       = Returned (body2, 200)
    /\ body1 = body2
    /\ exists s n,
         field "markdown" body1 = Some (JStr s)
         /\ field "markdown_size" body1 = Some (JInt (len s))
         /\ field "original_size" body1 = Some (JInt n).
Proof.
  eexists _, _. split; [vm_compute; reflexivity|]. split; [vm_compute; reflexivity|].
  apply (convert_file_deterministic sys_ok sys_var_tmp md_text req_hello req_renamed
           ∅ {[ "/var/tmp/notes.txt" := [] ]} hello_md
           {| filename := "upload.bin"; stream := String.list_byte_of_string "# Hello" |}
           _ _ 200 200 md_text_deterministic); vm_compute; reflexivity.
Defined.

(** The staged file has another name on another platform, and when
    the first candidate name is taken. *)
Example two_runs_two_names :
  created (events (convert_file sys_ok md_text req_hello ∅)) = ["/tmp/tmpabcdefgh.md"]
  /\ created (events (convert_file sys_var_tmp md_text req_hello ∅))
     = ["/var/tmp/tmp_zyxwvut.md"]
  /\ created (events (convert_file sys_ok md_text req_hello {[ "/tmp/tmpabcdefgh.md" := [] ]}))
     = ["/tmp/tmp01234567.md"].
Proof. repeat split; vm_compute; reflexivity. Qed.

(** ** The health check (C8) *)

(** C8: the route [GET /health] answers the fixed body with status 200
    for every request, converter, platform and disk, and it performs no
    effect: the disk is unchanged and nothing is recorded. *)
Theorem health_check_fixed :
  exists v,
    view_function "/health" "GET" = Some v
    /\ forall sys md req d,
         v sys md req d
         = mkRan (Returned (jsonify [("status", JStr "healthy");
                                     ("service", JStr "markitdown-service")], 200))
                 d [].
Proof. eexists. split; [reflexivity|]. reflexivity. Qed.

(** ** A body with the key [url] (C9) *)

(** C9: when the JSON body is an object with the key [url], whatever
    its value, the answer is not the status 400, the library is called
    once, on that value as it is, and whenever the library returns, the
    answer is the success response with status 200 that has that value
    as its [url] field; no other answer has status 200. *)
Theorem convert_url_passes_url md req d m url :
  get_json req = Returned (JObj m) ->
  Dict.get "url" m = Some url ->
  (forall body, result (convert_url md req d) <> Returned (body, 400))
  /\ library_calls (events (convert_url md req d)) = [url]
  /\ In (LibraryCall url (md_convert md d url)) (events (convert_url md req d))
  /\ (forall res, md_convert md d url = Returned res ->
      result (convert_url md req d)
      = Returned (jsonify [("success", JBool true);
                           ("url", url);
                           ("markdown", JStr (text_of res));
                           ("markdown_size", JInt (len (text_of res)))], 200))
  /\ (forall body, result (convert_url md req d) = Returned (body, 200) ->
      field "url" body = Some url).
Proof.
  intros Hj Hurl.
  assert (Ht : Py.truthy (JObj m) = true) by (destruct m; [discriminate|done]).
  assert (Hin : Py.contains "url" (JObj m) = Returned true)
    by (cbn; unfold Dict.mem; by rewrite Hurl).
  assert (Hget : Py.getitem (JObj m) "url" = Returned url) by (cbn; by rewrite Hurl).
  destruct (convert_url_run md req d) as
    [data Hj' Hno|e Hrej Hexn|data url' res Hj' Ht' Hin' Hget' Hc
    |data url' e Hj' Ht' Hin' Hget' Hc Hexn
    |e Hj' Hexn|data url' e Hj' Ht' Hin' Hget' Hc Hexn]; cbn.
  - exfalso. assert (data = JObj m) as -> by congruence.
    destruct Hno; congruence.
  - exfalso. destruct Hrej as [|(data & Hj' & _ & [|[]])]; try congruence.
    all: assert (data = JObj m) by congruence; subst data; congruence.
  - assert (data = JObj m) by congruence; subst data.
    assert (url' = url) as -> by congruence. rewrite Hc.
    split; [intros body [=]|]. split; [done|]. split; [tauto|].
    split; [by intros res' [= <-]|]. by intros body [= <-].
  - assert (data = JObj m) by congruence; subst data.
    assert (url' = url) as -> by congruence. rewrite Hc.
    split; [intros body [=]|]. split; [done|]. split; [tauto|].
    split; [intros res' [=]|]. intros body [=].
  - congruence.
  - assert (data = JObj m) by congruence; subst data.
    assert (url' = url) as -> by congruence. rewrite Hc.
    split; [intros body [=]|]. split; [done|]. split; [tauto|].
    split; [intros res' [=]|]. intros body [=].
Qed.

Lemma convert_url_passes_url_witness :
  let req := json_request (JObj [("url", JInt 5)]) in
  (forall body, result (convert_url md_none req ∅) <> Returned (body, 400))
  /\ library_calls (events (convert_url md_none req ∅)) = [JInt 5]
  /\ In (LibraryCall (JInt 5) (Returned None)) (events (convert_url md_none req ∅))
  /\ result (convert_url md_none req ∅)
     = Returned (jsonify [("success", JBool true);
                          ("url", JInt 5);
                          ("markdown", JStr EmptyString);
                          ("markdown_size", JInt 0)], 200)
  /\ (forall body, result (convert_url md_none req ∅) = Returned (body, 200) ->
      field "url" body = Some (JInt 5)).
Proof.
  destruct (convert_url_passes_url md_none (json_request (JObj [("url", JInt 5)])) ∅
              [("url", JInt 5)] (JInt 5) eq_refl eq_refl)
    as (Hno400 & Hcalls & Hcall & Hsuccess & Hecho).
  cbv zeta. split; [exact Hno400|]. split; [exact Hcalls|]. split; [exact Hcall|].
  split; [exact (Hsuccess None eq_refl)|exact Hecho].
Defined.

(** The value is not looked at: the empty string, a number and a
    malformed URL reach the library as they are. *)
Example convert_url_empty_string :
  events (convert_url md_text (json_request (JObj [("url", JStr EmptyString)])) ∅)
  = [Log INFO [Lit "Converting URL: "; Val (JStr EmptyString)];
     LibraryCall (JStr EmptyString) (Raised (Exn OtherException "Could not convert "))]
    ++ error_logs "Error converting URL: " (Exn OtherException "Could not convert ").
Proof. reflexivity. Qed.

(** ** An [os.unlink] that fails (C10) *)

Lemma stage_upload_unlink_fault fault sys f name d :
  stage_upload (with_unlink_fault fault sys) f name d = stage_upload sys f name d.
Proof. reflexivity. Qed.

(** C10: the response of [convert_file] does not depend on whether
    [os.unlink] fails, nor on the error it fails with. *)
Theorem unlink_failure_keeps_response sys md req d fault fault' :
  result (convert_file (with_unlink_fault fault sys) md req d)
  = result (convert_file (with_unlink_fault fault' sys) md req d).
Proof.
  destruct (convert_file_run (with_unlink_fault fault sys) md req d) as
    [Hf Hp|f Hf Hn Hp|f e d' evs Hf Hn Hst Hexn Hp|f q res name Hf Hn Hst Hfresh Hc Hp
    |f q e name Hf Hn Hst Hfresh Hc Hexn Hp
    |e Hp Hexn|e Hp Hexn|f e d' evs Hf Hn Hst Hexn Hp
    |f q e name Hf Hn Hst Hfresh Hc Hexn Hp];
  destruct (convert_file_run (with_unlink_fault fault' sys) md req d) as
    [Hf' Hp'|f' Hf' Hn' Hp'|f' e' d'' evs' Hf' Hn' Hst' Hexn' Hp'
    |f' q' res' name' Hf' Hn' Hst' Hfresh' Hc' Hp'
    |f' q' e' name' Hf' Hn' Hst' Hfresh' Hc' Hexn' Hp'
    |e' Hp' Hexn'|e' Hp' Hexn'|f' e' d'' evs' Hf' Hn' Hst' Hexn' Hp'
    |f' q' e' name' Hf' Hn' Hst' Hfresh' Hc' Hexn' Hp'];
  cbn; try congruence;
  assert (f' = f) as -> by congruence; try congruence;
  try subst name; try subst name';
  rewrite stage_upload_unlink_fault in Hst, Hst'; rewrite Hst in Hst';
  injection Hst' as Hst'; subst; congruence.
Qed.

(** The two runs differ: the failing unlink leaves the staged file. *)
Example unlink_failure_leaves_file :
  let busy := with_unlink_fault (Some "[Errno 16] Device or resource busy") sys_ok in
  result (convert_file busy md_text req_hello ∅)
  = result (convert_file sys_ok md_text req_hello ∅)
  /\ final_disk (convert_file busy md_text req_hello ∅) !! "/tmp/tmpabcdefgh.md"
     = Some (String.list_byte_of_string "# Hello")
  /\ final_disk (convert_file sys_ok md_text req_hello ∅) !! "/tmp/tmpabcdefgh.md" = None.
Proof. cbv zeta. repeat split; vm_compute; reflexivity. Qed.

(** * Further properties of the view functions *)

(** ** What the library is given *)

(** X1: the library is only ever called by [convert_file] on a staged
    path that did not exist before the request, whose extension is the
    extension of the filename in effect, and on a disk that is the
    initial disk plus that file holding exactly the uploaded bytes. *)
Theorem library_sees_staged_upload sys md req d source res :
  In (LibraryCall source res) (events (convert_file sys md req d)) ->
  exists f p,
    Dict.get "file" (files req) = Some f
    /\ source = JStr p
    /\ d !! p = None
    /\ snd (Path.splitext p)
       = snd (Path.splitext (Dict.get_default "filename" (filename f) (form req)))
    /\ res = md_convert md (<[p := stream f]> d) (JStr p).
Proof.
  assert (Hext : forall f q,
            stage_upload sys f (Dict.get_default "filename" (filename f) (form req)) d
            = mkRan (Returned q) (<[q := stream f]> d) [TempFileCreated q; FileSaved q] ->
            snd (Path.splitext q)
            = snd (Path.splitext (Dict.get_default "filename" (filename f) (form req)))).
  { intros f q Hst.
    pose proof (stage_upload_run sys f
                  (Dict.get_default "filename" (filename f) (form req)) d) as Hs.
    rewrite Hst in Hs. inversion Hs as [| | |q' Hm Hfree Hsave]; subst.
    destruct (first_free_Some _ _ _ Hfree) as [_ Hin'].
    apply in_map_iff in Hin' as (choices & <- & _). apply temp_path_ext. }
  destruct (convert_file_run sys md req d) as
    [Hf|f Hf Hn|f e d' evs Hf Hn Hst|f q r name Hf Hn Hst Hfresh Hc
    |f q e name Hf Hn Hst Hfresh Hc
    |e Hparse Hexn|e Hparse Hexn|f e d' evs Hf Hn Hst Hexn Hparse
    |f q e name Hf Hn Hst Hfresh Hc Hexn Hparse]; cbn; unfold error_logs;
    try solve [intuition discriminate].
  - pose proof (stage_upload_run sys f
                  (Dict.get_default "filename" (filename f) (form req)) d) as Hs.
    rewrite Hst in Hs. inversion Hs; subst; cbn; intuition discriminate.
  - intros Hin. assert (source = JStr q /\ res = Returned r) as [-> ->]
      by (intuition congruence).
    exists f, q. rewrite Hc. repeat split; try done. by apply Hext.
  - intros Hin. assert (source = JStr q /\ res = Raised e) as [-> ->]
      by (intuition congruence).
    exists f, q. rewrite Hc. repeat split; try done. by apply Hext.
  - pose proof (stage_upload_run sys f
                  (Dict.get_default "filename" (filename f) (form req)) d) as Hs.
    rewrite Hst in Hs. inversion Hs; subst; cbn; intuition discriminate.
  - intros Hin. assert (source = JStr q /\ res = Raised e) as [-> ->]
      by (intuition congruence).
    exists f, q. rewrite Hc. repeat split; try done. by apply Hext.
Qed.

Lemma library_sees_staged_upload_witness :
  In (LibraryCall (JStr "/tmp/tmpabcdefgh.md")
        (Returned (Some {| text_content := "# Hello" |})))
     (events (convert_file sys_ok md_text req_renamed ∅))
  /\ exists f p,
       Dict.get "file" (files req_renamed) = Some f
       /\ JStr "/tmp/tmpabcdefgh.md" = JStr p
       /\ (∅ : gmap string (list byte)) !! p = None
       /\ snd (Path.splitext p)
          = snd (Path.splitext (Dict.get_default "filename" (filename f) (form req_renamed)))
       /\ Returned (Some {| text_content := "# Hello" |})
          = md_convert md_text (<[p := stream f]> ∅) (JStr p).
Proof.
  assert (Hin : In (LibraryCall (JStr "/tmp/tmpabcdefgh.md")
                      (Returned (Some {| text_content := "# Hello" |})))
                   (events (convert_file sys_ok md_text req_renamed ∅)))
    by (vm_compute; tauto).
  split; [exact Hin|].
  exact (library_sees_staged_upload sys_ok md_text req_renamed ∅ _ _ Hin).
Defined.

(** A temporary file of the staging is a free candidate path. *)
Lemma stage_upload_created sys f name d p :
  In (TempFileCreated p) (events (stage_upload sys f name d)) ->
  In p (map (temp_path sys (snd (Path.splitext name))) (candidate_names sys))
  /\ d !! p = None.
Proof.
  destruct (stage_upload_run sys f name d) as [e He|Hm Hfree|q e Hm Hfree Hs|q Hm Hfree Hs];
    cbn; try tauto.
  - intros [[= <-]|[]]. destruct (first_free_Some _ _ _ Hfree). done.
  - intros [[= <-]|[|[]]]; [|discriminate]. destruct (first_free_Some _ _ _ Hfree). done.
Qed.

(** X2: whatever filename the client sends, a temporary file is created
    directly in the temporary directory: its path is the directory
    joined with a single component that starts with [tmp] and holds no
    separator, and nothing existed under that path. *)
Theorem staged_path_in_tempdir sys md req d p :
  In (TempFileCreated p) (events (convert_file sys md req d)) ->
  exists base,
    p = Path.join (tempdir sys) base
    /\ Str.startswith "tmp" base = true
    /\ Str.rfind Path.sep base = -1
    /\ d !! p = None.
Proof.
  intros Hin.
  assert (exists f, In p (map (temp_path sys
              (snd (Path.splitext (Dict.get_default "filename" (filename f) (form req)))))
              (candidate_names sys)) /\ d !! p = None) as (f & Hp & Hfresh).
  { revert Hin.
    destruct (convert_file_run sys md req d) as
      [Hf|f Hf Hn|f e d' evs Hf Hn Hst|f q r name Hf Hn Hst Hfresh Hc
      |f q e name Hf Hn Hst Hfresh Hc
      |e Hparse Hexn|e Hparse Hexn|f e d' evs Hf Hn Hst Hexn Hparse
      |f q e name Hf Hn Hst Hfresh Hc Hexn Hparse]; cbn; unfold error_logs;
      try solve [intuition discriminate];
    intros Hin; exists f; apply (stage_upload_created sys f); try subst name;
    rewrite Hst; cbn.
    - apply in_app_iff in Hin as [|Hin]; [done|]. cbn in Hin. intuition discriminate.
    - intuition discriminate.
    - intuition discriminate.
    - done.
    - intuition discriminate. }
  apply in_map_iff in Hp as (choices & <- & _).
  exists ("tmp" +:+ random_name choices
          +:+ snd (Path.splitext (Dict.get_default "filename" (filename f) (form req)))).
  split; [reflexivity|]. split; [reflexivity|]. split; [|done].
  rewrite <- str_app_assoc, rfind_app.
  assert (Hbase : Str.rfind Path.sep ("tmp" +:+ random_name choices) = -1)
    by (apply temp_basename_no; vm_compute; intuition discriminate).
  destruct (splitext_ext_shape (Dict.get_default "filename" (filename f) (form req)))
    as [->|(rest & -> & _ & Hrest)].
  - done.
  - replace (Str.rfind Path.sep (String Path.extsep rest)) with (-1)
      by (simpl; by rewrite Hrest).
    done.
Qed.

Lemma staged_path_in_tempdir_witness :
  let req := multipart [("file", hello_md)] [("filename", "../../etc/cron.d/job.sh")] in
  In (TempFileCreated "/tmp/tmpabcdefgh.sh") (events (convert_file sys_ok md_text req ∅))
  /\ exists base,
       "/tmp/tmpabcdefgh.sh" = Path.join (tempdir sys_ok) base
       /\ Str.startswith "tmp" base = true
       /\ Str.rfind Path.sep base = -1
       /\ (∅ : gmap string (list byte)) !! "/tmp/tmpabcdefgh.sh" = None.
Proof.
  cbv zeta.
  assert (Hin : In (TempFileCreated "/tmp/tmpabcdefgh.sh")
                   (events (convert_file sys_ok md_text
                      (multipart [("file", hello_md)]
                                 [("filename", "../../etc/cron.d/job.sh")]) ∅)))
    by (vm_compute; tauto).
  split; [exact Hin|].
  exact (staged_path_in_tempdir sys_ok md_text _ ∅ _ Hin).
Defined.

(** ** What [convert_file] does to the disk *)

(** X3: [convert_file] never modifies or removes a file that existed
    before the request, whatever fails: a path of the final disk holds
    what it held before, unless it is the one temporary file the run
    created, which did not exist. *)
Theorem existing_files_untouched sys md req d q :
  final_disk (convert_file sys md req d) !! q = d !! q
  \/ (d !! q = None /\ created (events (convert_file sys md req d)) = [q]).
Proof.
  destruct (convert_file_run sys md req d) as
    [Hf|f Hf Hn|f e d' evs Hf Hn Hst|f p r name Hf Hn Hst Hfresh Hc
    |f p e name Hf Hn Hst Hfresh Hc
    |e Hparse Hexn|e Hparse Hexn|f e d' evs Hf Hn Hst Hexn Hparse
    |f p e name Hf Hn Hst Hfresh Hc Hexn Hparse]; cbn; try tauto.
  - pose proof (stage_upload_run sys f
                  (Dict.get_default "filename" (filename f) (form req)) d) as Hs.
    rewrite Hst in Hs.
    inversion Hs as [| |p e' Hm Hfree Hsave|]; subst; cbn; try tauto.
    destruct (first_free_Some _ _ _ Hfree) as [Hfresh _].
    destruct (decide (p = q)) as [->|Hne]; [by right|].
    left. by apply lookup_insert_ne.
  - unfold cleaned. destruct (unlink_fault sys); cbn; [|tauto].
    destruct (decide (p = q)) as [->|Hne]; [by right|].
    left. by apply lookup_insert_ne.
  - unfold cleaned. destruct (unlink_fault sys); cbn; [|tauto].
    destruct (decide (p = q)) as [->|Hne]; [by right|].
    left. by apply lookup_insert_ne.
  - pose proof (stage_upload_run sys f
                  (Dict.get_default "filename" (filename f) (form req)) d) as Hs.
    rewrite Hst in Hs.
    inversion Hs as [| |p e' Hm Hfree Hsave|]; subst; cbn; try tauto.
    destruct (first_free_Some _ _ _ Hfree) as [Hfresh _].
    destruct (decide (p = q)) as [->|Hne]; [by right|].
    left. by apply lookup_insert_ne.
  - unfold cleaned. destruct (unlink_fault sys); cbn; [|tauto].
    destruct (decide (p = q)) as [->|Hne]; [by right|].
    left. by apply lookup_insert_ne.
Qed.

(** X4: when neither the save nor the unlink fails, [convert_file]
    leaves the disk exactly as it found it, whatever the request, the
    temporary names and the outcome of the conversion. *)
Theorem disk_restored sys md req d :
  save_fault sys = None ->
  unlink_fault sys = None ->
  final_disk (convert_file sys md req d) = d.
Proof.
  intros Hsave Hunlink.
  destruct (convert_file_run sys md req d) as
    [Hf|f Hf Hn|f e d' evs Hf Hn Hst|f p r name Hf Hn Hst Hfresh Hc
    |f p e name Hf Hn Hst Hfresh Hc
    |e Hparse Hexn|e Hparse Hexn|f e d' evs Hf Hn Hst Hexn Hparse
    |f p e name Hf Hn Hst Hfresh Hc Hexn Hparse]; cbn; try done.
  - pose proof (stage_upload_run sys f
                  (Dict.get_default "filename" (filename f) (form req)) d) as Hs.
    rewrite Hst in Hs. inversion Hs; subst; congruence.
  - unfold cleaned. by rewrite Hunlink.
  - unfold cleaned. by rewrite Hunlink.
  - pose proof (stage_upload_run sys f
                  (Dict.get_default "filename" (filename f) (form req)) d) as Hs.
    rewrite Hst in Hs. inversion Hs; subst; congruence.
  - unfold cleaned. by rewrite Hunlink.
Qed.

Lemma disk_restored_witness :
  final_disk (convert_file sys_ok md_text req_hello {[ "/tmp/tmpabcdefgh.md" := [] ]})
  = {[ "/tmp/tmpabcdefgh.md" := [] ]}.
Proof. apply disk_restored; reflexivity. Defined.

(** X5: the temporary file a run created is still on disk afterwards
    exactly when the save or the unlink failed. *)
Theorem staged_file_left_behind_iff sys md req d p :
  created (events (convert_file sys md req d)) = [p] ->
  is_Some (final_disk (convert_file sys md req d) !! p)
  <-> is_Some (save_fault sys) \/ is_Some (unlink_fault sys).
Proof.
  destruct (convert_file_run sys md req d) as
    [Hf|f Hf Hn|f e d' evs Hf Hn Hst|f q r name Hf Hn Hst Hfresh Hc
    |f q e name Hf Hn Hst Hfresh Hc
    |e Hparse Hexn|e Hparse Hexn|f e d' evs Hf Hn Hst Hexn Hparse
    |f q e name Hf Hn Hst Hfresh Hc Hexn Hparse]; cbn; try discriminate.
  - pose proof (stage_upload_run sys f
                  (Dict.get_default "filename" (filename f) (form req)) d) as Hs.
    rewrite Hst in Hs.
    inversion Hs as [| |q e' Hm Hfree Hsave|]; subst; cbn; try discriminate.
    intros [= ->]. rewrite lookup_insert_eq, Hsave. split; eauto.
  - intros [= ->].
    pose proof (stage_upload_run sys f name d) as Hs. rewrite Hst in Hs.
    inversion Hs as [| | |q' Hm Hfree Hsave]; subst.
    unfold cleaned. rewrite Hsave.
    destruct (unlink_fault sys); cbn.
    + rewrite lookup_insert_eq. split; eauto.
    + rewrite Hfresh. split; [intros []; discriminate|].
      intros [[]|[]]; discriminate.
  - intros [= ->].
    pose proof (stage_upload_run sys f name d) as Hs. rewrite Hst in Hs.
    inversion Hs as [| | |q' Hm Hfree Hsave]; subst.
    unfold cleaned. rewrite Hsave.
    destruct (unlink_fault sys); cbn.
    + rewrite lookup_insert_eq. split; eauto.
    + rewrite Hfresh. split; [intros []; discriminate|].
      intros [[]|[]]; discriminate.
  - pose proof (stage_upload_run sys f
                  (Dict.get_default "filename" (filename f) (form req)) d) as Hs.
    rewrite Hst in Hs.
    inversion Hs as [| |q e' Hm Hfree Hsave|]; subst; cbn; try discriminate.
    intros [= ->]. rewrite lookup_insert_eq, Hsave. split; eauto.
  - intros [= ->].
    pose proof (stage_upload_run sys f name d) as Hs. rewrite Hst in Hs.
    inversion Hs as [| | |q' Hm Hfree Hsave]; subst.
    unfold cleaned. rewrite Hsave.
    destruct (unlink_fault sys); cbn.
    + rewrite lookup_insert_eq. split; eauto.
    + rewrite Hfresh. split; [intros []; discriminate|].
      intros [[]|[]]; discriminate.
Qed.

Lemma staged_file_left_behind_iff_witness :
  is_Some (final_disk (convert_file sys_disk_full md_text req_hello ∅)
             !! "/tmp/tmpabcdefgh.md")
  <-> is_Some (save_fault sys_disk_full) \/ is_Some (unlink_fault sys_disk_full).
Proof. apply staged_file_left_behind_iff. vm_compute. reflexivity. Defined.

(** ** The order and the number of the effects *)

(** Cuts a list of known events at the library call of [Heq]. *)
Ltac split_events Heq pre :=
  destruct pre as [|? pre]; cbn in Heq;
  [ first [ discriminate Heq
          | simplify_eq; eexists; split; [reflexivity|]; cbn; intuition ]
  | first [ discriminate Heq
          | injection Heq as ? Heq; subst; split_events Heq pre ] ].

(** X6: in [convert_file] the library is called strictly between the
    staging and the cleanup: before the call the upload was created and
    saved under a temporary path and nothing was unlinked, after it that
    path is unlinked once, and there is no other library call. *)
Theorem conversion_between_staging_and_cleanup sys md req d pre source res post :
  events (convert_file sys md req d) = pre ++ LibraryCall source res :: post ->
  exists p,
    source = JStr p
    /\ created pre = [p] /\ In (FileSaved p) pre
    /\ unlink_attempts pre = [] /\ library_calls pre = []
    /\ unlink_attempts post = [p] /\ library_calls post = [] /\ created post = [].
Proof.
  destruct (convert_file_run sys md req d) as
    [Hf|f Hf Hn|f e d' evs Hf Hn Hst|f p r name Hf Hn Hst Hfresh Hc
    |f p e name Hf Hn Hst Hfresh Hc
    |e Hparse Hexn|e Hparse Hexn|f e d' evs Hf Hn Hst Hexn Hparse
    |f p e name Hf Hn Hst Hfresh Hc Hexn Hparse]; cbn.
  - by destruct pre.
  - by destruct pre.
  - pose proof (stage_upload_run sys f
                  (Dict.get_default "filename" (filename f) (form req)) d) as Hs.
    rewrite Hst in Hs. unfold error_logs.
    inversion Hs; subst; cbn; intros Heq; split_events Heq pre.
  - intros Heq. split_events Heq pre.
  - unfold error_logs. cbn. intros Heq. split_events Heq pre.
  - unfold error_logs. intros Heq. split_events Heq pre.
  - by destruct pre.
  - pose proof (stage_upload_run sys f
                  (Dict.get_default "filename" (filename f) (form req)) d) as Hs.
    rewrite Hst in Hs.
    inversion Hs; subst; cbn; intros Heq; split_events Heq pre.
  - intros Heq. split_events Heq pre.
Qed.

Lemma conversion_between_staging_and_cleanup_witness :
  exists p,
    JStr "/tmp/tmpabcdefgh.md" = JStr p
    /\ created [TempFileCreated "/tmp/tmpabcdefgh.md"; FileSaved "/tmp/tmpabcdefgh.md";
                Log INFO [Lit "Converting file: "; Val (JStr "test.md")]] = [p]
    /\ In (FileSaved p)
          [TempFileCreated "/tmp/tmpabcdefgh.md"; FileSaved "/tmp/tmpabcdefgh.md";
           Log INFO [Lit "Converting file: "; Val (JStr "test.md")]]
    /\ unlink_attempts
         [TempFileCreated "/tmp/tmpabcdefgh.md"; FileSaved "/tmp/tmpabcdefgh.md";
          Log INFO [Lit "Converting file: "; Val (JStr "test.md")]] = []
    /\ library_calls
         [TempFileCreated "/tmp/tmpabcdefgh.md"; FileSaved "/tmp/tmpabcdefgh.md";
          Log INFO [Lit "Converting file: "; Val (JStr "test.md")]] = []
    /\ unlink_attempts
         [Log INFO [Lit "Successfully converted "; Val (JStr "test.md");
                    Lit " to markdown ("; Val (JInt 7); Lit " characters)"];
          Unlink "/tmp/tmpabcdefgh.md" true] = [p]
    /\ library_calls
         [Log INFO [Lit "Successfully converted "; Val (JStr "test.md");
                    Lit " to markdown ("; Val (JInt 7); Lit " characters)"];
          Unlink "/tmp/tmpabcdefgh.md" true] = []
    /\ created
         [Log INFO [Lit "Successfully converted "; Val (JStr "test.md");
                    Lit " to markdown ("; Val (JInt 7); Lit " characters)"];
          Unlink "/tmp/tmpabcdefgh.md" true] = [].
Proof.
  apply (conversion_between_staging_and_cleanup sys_ok md_text req_hello ∅ _
           (JStr "/tmp/tmpabcdefgh.md")
           (Returned (Some {| text_content := "# Hello" |}))).
  vm_compute. reflexivity.
Defined.

(** X7: for every route, a request creates at most one temporary file,
    calls the library at most once and calls [os.unlink] at most once,
    and then on the file it created. *)
Theorem at_most_one_of_each rule method v sys md req d :
  view_function rule method = Some v ->
  (length (created (events (v sys md req d))) <= 1)%nat
  /\ (length (library_calls (events (v sys md req d))) <= 1)%nat
  /\ (length (unlink_attempts (events (v sys md req d))) <= 1)%nat
  /\ forall p, In p (unlink_attempts (events (v sys md req d))) ->
               In p (created (events (v sys md req d))).
Proof.
  intros Hv. destruct (view_function_cases _ _ _ Hv) as [->|[->| ->]].
  - cbn. intuition lia.
  - destruct (convert_file_run sys md req d) as
      [Hf|f Hf Hn|f e d' evs Hf Hn Hst|f p r name Hf Hn Hst Hfresh Hc
      |f p e name Hf Hn Hst Hfresh Hc
      |e Hparse Hexn|e Hparse Hexn|f e d' evs Hf Hn Hst Hexn Hparse
      |f p e name Hf Hn Hst Hfresh Hc Hexn Hparse]; cbn; try solve [intuition lia].
    all: pose proof (stage_upload_run sys f
                  (Dict.get_default "filename" (filename f) (form req)) d) as Hs;
      rewrite Hst in Hs; inversion Hs; subst; cbn; intuition lia.
  - destruct (convert_url_run md req d); cbn; intuition lia.
Qed.

Lemma at_most_one_of_each_witness :
  (length (created (events (convert_file sys_ok md_text req_hello ∅))) <= 1)%nat
  /\ (length (library_calls (events (convert_file sys_ok md_text req_hello ∅))) <= 1)%nat
  /\ (length (unlink_attempts (events (convert_file sys_ok md_text req_hello ∅))) <= 1)%nat
  /\ forall p, In p (unlink_attempts (events (convert_file sys_ok md_text req_hello ∅))) ->
               In p (created (events (convert_file sys_ok md_text req_hello ∅))).
Proof.
  apply (at_most_one_of_each "/convert" "POST"
           (fun sys md req => convert_file sys md req)).
  reflexivity.
Defined.

(** ** The answers *)

(** X8: a view function never lets an [Exception] through.  It either
    answers, with status 200, 400 or 500 (a 200 body has no [error]
    field, a 400 body has an [error] string and no [success] field, a
    500 body has [success] false and an [error] string), or it
    propagates an exception raised underneath it that is not an
    [Exception] ([KeyboardInterrupt], [SystemExit], [GeneratorExit]). *)
Theorem every_route_answers rule method v sys md req d :
  view_function rule method = Some v ->
  (exists body status,
     result (v sys md req d) = Returned (body, status)
     /\ (status = 200 /\ field "error" body = None
                      /\ field "success" body <> Some (JBool false)
         \/ status = 400 /\ field "success" body = None
                         /\ (exists msg, field "error" body = Some (JStr msg))
         \/ status = 500 /\ field "success" body = Some (JBool false)
                         /\ (exists msg, field "error" body = Some (JStr msg))))
  \/ (exists e, result (v sys md req d) = Raised e /\ is_Exception e = false).
Proof.
  intros Hv. destruct (view_function_cases _ _ _ Hv) as [->|[->| ->]].
  - left. eexists _, _. split; [reflexivity|]. left. by cbn.
  - destruct (convert_file_run sys md req d);
      first [ by (right; eexists)
            | left; eexists _, _; (split; [reflexivity|]); cbn; eauto 8 ].
  - destruct (convert_url_run md req d);
      first [ by (right; eexists)
            | left; eexists _, _; (split; [reflexivity|]); cbn; eauto 8 ].
Qed.

Lemma every_route_answers_witness :
  (exists body status,
     result (convert_url md_text req_json_number ∅) = Returned (body, status)
     /\ (status = 200 /\ field "error" body = None
                      /\ field "success" body <> Some (JBool false)
         \/ status = 400 /\ field "success" body = None
                         /\ (exists msg, field "error" body = Some (JStr msg))
         \/ status = 500 /\ field "success" body = Some (JBool false)
                         /\ (exists msg, field "error" body = Some (JStr msg))))
  \/ (exists e, result (convert_url md_text req_json_number ∅) = Raised e
                /\ is_Exception e = false).
Proof.
  apply (every_route_answers "/convert-url" "POST" (fun _ md req => convert_url md req) sys_ok).
  reflexivity.
Defined.

(** An interrupted library call is not answered; the staged file is
    still unlinked on the way out. *)
Example interrupt_goes_through :
  convert_file sys_ok md_interrupted req_hello ∅
  = mkRan (Raised (Exn KeyboardInterrupt EmptyString)) ∅
          [TempFileCreated "/tmp/tmpabcdefgh.md"; FileSaved "/tmp/tmpabcdefgh.md";
           Log INFO [Lit "Converting file: "; Val (JStr "test.md")];
           LibraryCall (JStr "/tmp/tmpabcdefgh.md")
                       (Raised (Exn KeyboardInterrupt EmptyString));
           Unlink "/tmp/tmpabcdefgh.md" true].
Proof. vm_compute. reflexivity. Qed.

(** X9: for every route, a record is logged at the error level exactly
    when the answer has status 500. *)
Theorem error_logged_iff_500 rule method v sys md req d :
  view_function rule method = Some v ->
  (exists msg, In (Log ERROR msg) (events (v sys md req d)))
  <-> (exists body, result (v sys md req d) = Returned (body, 500)).
Proof.
  intros Hv. destruct (view_function_cases _ _ _ Hv) as [->|[->| ->]].
  - cbn. split; [intros (? & [])|intros (? & [=])].
  - destruct (convert_file_run sys md req d) as
      [Hf|f Hf Hn|f e d' evs Hf Hn Hst|f p r name Hf Hn Hst Hfresh Hc
      |f p e name Hf Hn Hst Hfresh Hc
      |e Hparse Hexn|e Hparse Hexn|f e d' evs Hf Hn Hst Hexn Hparse
      |f p e name Hf Hn Hst Hfresh Hc Hexn Hparse]; cbn; unfold error_logs, failure.
    + split; [intros (? & [])|intros (? & [=])].
    + split; [intros (? & [])|intros (? & [=])].
    + split; [eauto|]. intros _. eexists. apply in_app_iff. right. by left.
    + split; [|intros (? & [=])]. intros (msg & Hin). intuition discriminate.
    + split; [eauto|]. intros _. eexists. do 5 right. by left.
    + split; [eauto|]. intros _. eexists. by left.
    + split; [intros (? & [])|intros (? & [=])].
    + split; [|intros (? & [=])]. intros (msg & Hin). exfalso.
      pose proof (stage_upload_run sys f
                    (Dict.get_default "filename" (filename f) (form req)) d) as Hs.
      rewrite Hst in Hs. inversion Hs; subst; cbn in Hin; intuition discriminate.
    + split; [|intros (? & [=])]. intros (msg & Hin). intuition discriminate.
  - destruct (convert_url_run md req d); cbn; unfold error_logs, failure.
    + split; [intros (? & [])|intros (? & [=])].
    + split; [eauto|]. intros _. eexists. by left.
    + split; [|intros (? & [=])]. intros (msg & Hin). intuition discriminate.
    + split; [eauto|]. intros _. eexists. do 2 right. by left.
    + split; [intros (? & [])|intros (? & [=])].
    + split; [|intros (? & [=])]. intros (msg & Hin). intuition discriminate.
Qed.

Lemma error_logged_iff_500_witness :
  (exists msg, In (Log ERROR msg) (events (convert_file sys_disk_full md_text req_hello ∅)))
  <-> (exists body,
         result (convert_file sys_disk_full md_text req_hello ∅) = Returned (body, 500)).
Proof.
  apply (error_logged_iff_500 "/convert" "POST" (fun sys md req => convert_file sys md req)).
  reflexivity.
Defined.

(** X10: for every route, a request answered with status 400 had no
    effect at all: nothing is logged, no file is created, the library is
    not called and the disk is unchanged. *)
Theorem client_error_touches_nothing rule method v sys md req d body :
  view_function rule method = Some v ->
  result (v sys md req d) = Returned (body, 400) ->
  events (v sys md req d) = [] /\ final_disk (v sys md req d) = d.
Proof.
  intros Hv. destruct (view_function_cases _ _ _ Hv) as [->|[->| ->]].
  - cbn. intros [=].
  - destruct (convert_file_run sys md req d); cbn; intros [=]; done.
  - destruct (convert_url_run md req d); cbn; intros [=]; done.
Qed.

Lemma client_error_touches_nothing_witness :
  events (convert_url md_text (json_request (JObj [("uri", JStr "https://example.org")]))
            {[ "/tmp/keep" := [] ]}) = []
  /\ final_disk (convert_url md_text (json_request (JObj [("uri", JStr "https://example.org")]))
                   {[ "/tmp/keep" := [] ]}) = {[ "/tmp/keep" := [] ]}.
Proof.
  apply (client_error_touches_nothing "/convert-url" "POST"
           (fun _ md req => convert_url md req) sys_ok md_text _ _
           (jsonify [("error", JStr "No URL provided")])); reflexivity.
Defined.

(** X11: for every route, the outcome of the library call decides what
    the view function does: an [Exception] gives status 500 with the
    exception's message, an exception that is not an [Exception] goes
    through the handler, and a result gives status 200 with the result's
    text as [markdown] (the empty text for [None]). *)
Theorem library_outcome_decides rule method v sys md req d source res :
  view_function rule method = Some v ->
  In (LibraryCall source res) (events (v sys md req d)) ->
  match res with
  | Raised e =>
      result (v sys md req d)
      = if is_Exception e then Returned (failure e) else Raised e
  | Returned r =>
      exists body, result (v sys md req d) = Returned (body, 200)
                   /\ field "success" body = Some (JBool true)
                   /\ field "markdown" body = Some (JStr (text_of r))
  end.
Proof.
  intros Hv. destruct (view_function_cases _ _ _ Hv) as [->|[->| ->]].
  - cbn. tauto.
  - destruct (convert_file_run sys md req d) as
      [Hf|f Hf Hn|f e d' evs Hf Hn Hst|f p r name Hf Hn Hst Hfresh Hc
      |f p e name Hf Hn Hst Hfresh Hc Hexn Hparse
      |e Hparse Hexn|e Hparse Hexn|f e d' evs Hf Hn Hst Hexn Hparse
      |f p e name Hf Hn Hst Hfresh Hc Hexn Hparse]; cbn; unfold error_logs;
      try solve [intuition discriminate].
    + pose proof (stage_upload_run sys f
                    (Dict.get_default "filename" (filename f) (form req)) d) as Hs.
      rewrite Hst in Hs. inversion Hs; subst; cbn; intuition discriminate.
    + intros Hin. assert (res = Returned r) as -> by (intuition congruence).
      eexists. split; [reflexivity|]. done.
    + intros Hin. assert (res = Raised e) as -> by (intuition congruence).
      by rewrite Hexn.
    + pose proof (stage_upload_run sys f
                    (Dict.get_default "filename" (filename f) (form req)) d) as Hs.
      rewrite Hst in Hs. inversion Hs; subst; cbn; intuition discriminate.
    + intros Hin. assert (res = Raised e) as -> by (intuition congruence).
      by rewrite Hexn.
  - destruct (convert_url_run md req d) as
      [data Hj Hno|e Hrej Hexn|data url r Hj Ht Hin Hget Hc
      |data url e Hj Ht Hin Hget Hc Hexn
      |e Hj Hexn|data url e Hj Ht Hin Hget Hc Hexn];
      cbn; unfold error_logs; try solve [intuition discriminate].
    + intros Hev. assert (res = Returned r) as -> by (intuition congruence).
      eexists. split; [reflexivity|]. done.
    + intros Hev. assert (res = Raised e) as -> by (intuition congruence).
      by rewrite Hexn.
    + intros Hev. assert (res = Raised e) as -> by (intuition congruence).
      by rewrite Hexn.
Qed.

Lemma library_outcome_decides_witness :
  result (convert_url md_text (json_request (JObj [("url", JStr "not-a-real-url")])) ∅)
  = Returned (failure (Exn OtherException "Could not convert not-a-real-url")).
Proof.
  apply (library_outcome_decides "/convert-url" "POST" (fun _ md req => convert_url md req)
           sys_ok md_text (json_request (JObj [("url", JStr "not-a-real-url")])) ∅
           (JStr "not-a-real-url")
           (Raised (Exn OtherException "Could not convert not-a-real-url"))).
  - reflexivity.
  - vm_compute. tauto.
Defined.

(** ** [convert_url] *)

(** X12: [convert_url] never touches the file system: the disk is
    unchanged, no file is created or unlinked, and the library is called
    on the disk as it was. *)
Theorem convert_url_leaves_disk md req d :
  final_disk (convert_url md req d) = d
  /\ created (events (convert_url md req d)) = []
  /\ unlink_attempts (events (convert_url md req d)) = []
  /\ forall source res,
       In (LibraryCall source res) (events (convert_url md req d)) ->
       res = md_convert md d source.
Proof.
  destruct (convert_url_run md req d) as
    [data Hj Hno|e Hrej|data url r Hj Ht Hin Hget Hc|data url e Hj Ht Hin Hget Hc | |];
    cbn; unfold error_logs; repeat split; try done;
    intros source res Hev; intuition (try discriminate); simplify_eq; done.
Qed.

(** X13: [convert_url] answers with status 400 exactly when
    [request.get_json()] returned a value that is falsy or that is an
    object, a list or a string which does not contain [url]; a body on
    which [get_json] or the membership test raises is not answered
    with 400. *)
Theorem convert_url_400_iff md req d :
  (exists body, result (convert_url md req d) = Returned (body, 400))
  <-> (exists data, get_json req = Returned data
                    /\ (Py.truthy data = false
                        \/ Py.contains "url" data = Returned false)).
Proof.
  destruct (convert_url_run md req d) as
    [data Hj Hno|e Hrej|data url r Hj Ht Hin Hget Hc|data url e Hj Ht Hin Hget Hc
    |e Hj' Hexn|data url e Hj Ht Hin Hget Hc Hexn]; cbn.
  - split; eauto.
  - split; [intros (? & [=])|]. intros (data & Hj & Hno). exfalso.
    destruct Hrej as [Hj'|(data' & Hj' & Ht & Hrest)]; [congruence|].
    assert (data' = data) as -> by congruence.
    destruct Hno as [|Hin]; [congruence|]. rewrite Hin in Hrest.
    destruct Hrest as [|[]]; discriminate.
  - split; [intros (? & [=])|]. intros (data' & Hj' & Hno). exfalso.
    assert (data' = data) as -> by congruence. destruct Hno; congruence.
  - split; [intros (? & [=])|]. intros (data' & Hj' & Hno). exfalso.
    assert (data' = data) as -> by congruence. destruct Hno; congruence.
  - split; [intros (? & [=])|]. intros (data & Hj & Hno). congruence.
  - split; [intros (? & [=])|]. intros (data' & Hj' & Hno). exfalso.
    assert (data' = data) as -> by congruence. destruct Hno; congruence.
Qed.

(** X14: when the body is a JSON object, [convert_url] answers with
    status 400 exactly when the object has no key [url]. *)
Theorem convert_url_object_400_iff md req d m :
  get_json req = Returned (JObj m) ->
  (exists body, result (convert_url md req d) = Returned (body, 400))
  <-> Dict.get "url" m = None.
Proof.
  intros Hj.
  assert (Hin : Py.contains "url" (JObj m)
                = Returned (Dict.mem "url" m)) by reflexivity.
  unfold Dict.mem in Hin.
  destruct (convert_url_run md req d) as
    [data Hj' Hno|e Hrej|data url r Hj' Ht Hin' Hget Hc|data url e Hj' Ht Hin' Hget Hc
    |e Hj' Hexn|data url e Hj' Ht Hin' Hget Hc Hexn];
    cbn.
  - assert (data = JObj m) as -> by congruence. split; [|eauto]. intros _.
    destruct Hno as [Hfalsy|Hno]; [by destruct m|].
    rewrite Hin in Hno. by destruct (Dict.get "url" m).
  - split; [intros (? & [=])|]. intros Hnone. exfalso.
    destruct Hrej as [|(data & Hj' & Ht & Hrest)]; [congruence|].
    assert (data = JObj m) as -> by congruence.
    rewrite Hin, Hnone in Hrest. destruct Hrest as [|[]]; discriminate.
  - split; [intros (? & [=])|]. intros Hnone. exfalso.
    assert (data = JObj m) as -> by congruence.
    rewrite Hin, Hnone in Hin'. discriminate.
  - split; [intros (? & [=])|]. intros Hnone. exfalso.
    assert (data = JObj m) as -> by congruence.
    rewrite Hin, Hnone in Hin'. discriminate.
  - congruence.
  - split; [intros (? & [=])|]. intros Hnone. exfalso.
    assert (data = JObj m) as -> by congruence.
    rewrite Hin, Hnone in Hin'. discriminate.
Qed.

Lemma convert_url_object_400_iff_witness :
  (exists body,
     result (convert_url md_text (json_request (JObj [("URL", JStr "https://example.org")])) ∅)
     = Returned (body, 400))
  <-> Dict.get "url" [("URL", JStr "https://example.org")] = None.
Proof. apply convert_url_object_400_iff. reflexivity. Defined.

(** ** [convert_file] *)

(** X15: [convert_file] answers with status 400 exactly when the form
    data of the request loads and the request has no [file] field or the
    uploaded file reports the empty name; neither the content, the form
    fields nor any fault leads to it. *)
Theorem convert_file_400_iff sys md req d :
  (exists body, result (convert_file sys md req d) = Returned (body, 400))
  <-> parse_fault req = None
      /\ (Dict.get "file" (files req) = None
          \/ exists f, Dict.get "file" (files req) = Some f /\ filename f = EmptyString).
Proof.
  destruct (convert_file_run sys md req d) as
    [Hf Hparse|f Hf Hn Hparse|f e d' evs Hf Hn Hst Hexn Hparse
    |f p r name Hf Hn Hst Hfresh Hc Hparse
    |f p e name Hf Hn Hst Hfresh Hc Hexn Hparse
    |e Hparse Hexn|e Hparse Hexn|f e d' evs Hf Hn Hst Hexn Hparse
    |f p e name Hf Hn Hst Hfresh Hc Hexn Hparse]; cbn.
  - split; eauto.
  - split; eauto.
  - split; [intros (? & [=])|]. intros [_ [|(f' & Hf' & Hempty)]]; congruence.
  - split; [intros (? & [=])|]. intros [_ [|(f' & Hf' & Hempty)]]; congruence.
  - split; [intros (? & [=])|]. intros [_ [|(f' & Hf' & Hempty)]]; congruence.
  - split; [intros (? & [=])|]. intros [? _]; congruence.
  - split; [intros (? & [=])|]. intros [? _]; congruence.
  - split; [intros (? & [=])|]. intros [_ [|(f' & Hf' & Hempty)]]; congruence.
  - split; [intros (? & [=])|]. intros [_ [|(f' & Hf' & Hempty)]]; congruence.
Qed.

(** X16: a 200 answer of [convert_file] reports the filename in effect
    (the form field [filename] when there is one, the uploaded file's
    name otherwise) and, as [original_size], the number of bytes that
    were uploaded. *)
Theorem convert_file_reports_upload sys md req d body :
  result (convert_file sys md req d) = Returned (body, 200) ->
  exists f name,
    Dict.get "file" (files req) = Some f
    /\ effective_filename req = Some name
    /\ field "filename" body = Some (JStr name)
    /\ field "original_size" body = Some (JInt (Z.of_nat (length (stream f)))).
Proof.
  destruct (convert_file_run sys md req d) as
    [Hf|f Hf Hn|f e d' evs Hf Hn Hst|f p r name Hf Hn Hst Hfresh Hc
    |f p e name Hf Hn Hst Hfresh Hc | | | |]; cbn; intros [= <-].
  exists f, name. unfold effective_filename. rewrite Hf. done.
Qed.

Lemma convert_file_reports_upload_witness :
  exists f name,
    Dict.get "file" (files req_renamed) = Some f
    /\ effective_filename req_renamed = Some name
    /\ field "filename"
         (jsonify [("success", JBool true); ("filename", JStr "test.md");
                   ("markdown", JStr "# Hello"); ("original_size", JInt 7);
                   ("markdown_size", JInt 7)]) = Some (JStr name)
    /\ field "original_size"
         (jsonify [("success", JBool true); ("filename", JStr "test.md");
                   ("markdown", JStr "# Hello"); ("original_size", JInt 7);
                   ("markdown_size", JInt 7)])
       = Some (JInt (Z.of_nat (length (stream f)))).
Proof.
  apply (convert_file_reports_upload sys_ok md_text req_renamed ∅).
  vm_compute. reflexivity.
Defined.

(** ** The start-up settings *)

(** Decides, character by character, which characters are lowered to
    a given one. *)
Ltac lowered_to :=
  let c := fresh "c" in
  intros c; destruct c as [[] [] [] [] [] [] [] []];
  (split; [intros H; first [discriminate H | auto]
          |intros [H|H]; first [discriminate H | reflexivity]]).

Lemma lower_char_t c : Str.lower_char c = "t"%char <-> c = "t"%char \/ c = "T"%char.
Proof. revert c. lowered_to. Qed.

Lemma lower_char_r c : Str.lower_char c = "r"%char <-> c = "r"%char \/ c = "R"%char.
Proof. revert c. lowered_to. Qed.

Lemma lower_char_u c : Str.lower_char c = "u"%char <-> c = "u"%char \/ c = "U"%char.
Proof. revert c. lowered_to. Qed.

Lemma lower_char_e c : Str.lower_char c = "e"%char <-> c = "e"%char \/ c = "E"%char.
Proof. revert c. lowered_to. Qed.

(** X17: the debug mode is on exactly when the variable [DEBUG] is set
    to the four letters of [true] in any mix of cases; an unset
    variable, [1], [yes] or [true] with a space around it leave it
    off. *)
Theorem debug_iff (environ : gmap string string) :
  debug environ = true
  <-> exists c1 c2 c3 c4,
        environ !! "DEBUG" = Some (String c1 (String c2 (String c3 (String c4 EmptyString))))
        /\ (c1 = "t" \/ c1 = "T")%char /\ (c2 = "r" \/ c2 = "R")%char
        /\ (c3 = "u" \/ c3 = "U")%char /\ (c4 = "e" \/ c4 = "E")%char.
Proof.
  unfold debug, environ_get. rewrite String.eqb_eq.
  destruct (environ !! "DEBUG") as [s|].
  - split.
    + destruct s as [|c1 [|c2 [|c3 [|c4 [|c5 s]]]]]; cbn; try discriminate.
      intros [= H1 H2 H3 H4]. exists c1, c2, c3, c4.
      rewrite <- lower_char_t, <- lower_char_r, <- lower_char_u, <- lower_char_e. done.
    + intros (c1 & c2 & c3 & c4 & [= ->] & H1 & H2 & H3 & H4). cbn.
      apply lower_char_t in H1. apply lower_char_r in H2.
      apply lower_char_u in H3. apply lower_char_e in H4. congruence.
  - split; [discriminate|]. intros (? & ? & ? & ? & [=] & _).
Qed.

Example debug_examples :
  debug {[ "DEBUG" := "TrUe" ]} = true
  /\ debug {[ "DEBUG" := "1" ]} = false
  /\ debug {[ "DEBUG" := "true " ]} = false
  /\ debug {[ "PORT" := "8080" ]} = false.
Proof. repeat split; vm_compute; reflexivity. Qed.
